(** * Weather forecasting pipeline: a shallow embedding of
      [src/weather_prediction.py] and the properties of its specification.

    Conventions of the embedding.

    - Numbers.  Python floats are IEEE-754 doubles.  Every finite double is
      a rational number, so numeric values live in [Q].  The synthesizer,
      the scaler and the learners compute in the exact arithmetic of [Q]:
      there the rounding error of the individual double operations is not
      modelled.  Comparisons against the integer thresholds of the program
      are exact on doubles, hence exact here.  Where the program rounds for
      output ([round(x, 1)] on the predictions, lines 132-133) the doubles
      are modelled as they are: [float64] has the finite values, the
      infinities and NaN, and its operations round to the nearest double,
      ties to even, and overflow to an infinity.  Zero has no sign.
    - Library functions that are not rational functions ([np.pi], [np.sin],
      [np.cos], [np.sqrt]), the fitting algorithms of scikit-learn and the
      pseudo-random permutation behind [train_test_split] are parameters of
      the development (the classes [Numpy] and [Sklearn]).
    - Effects.  The program mutates the predictor object ([self]) and the
      global random generator of numpy; both are fields of an explicit
      [World] threaded through a state-and-exception monad [Py].  A raised
      exception keeps the world reached so far, as in Python.
    - Environment.  The wall clock ([datetime.now()]) and the HTTP endpoint
      ([requests.get]) are two more fields of the world, which the program
      reads and cannot change.  Every method reads the clock once and sends
      one request, so one world accounts for one method call; the script,
      which calls two methods minutes apart, is given the environment of its
      second call separately ([elapse]). *)

From Stdlib Require Import ZArith QArith Qround Qabs Qpower.
From Stdlib Require Import List String Ascii Bool.
From Stdlib Require Import Lia Lqa Permutation.
Import ListNotations.

Set Implicit Arguments.
Local Open Scope Z_scope.
Local Open Scope Q_scope.
Local Open Scope string_scope.
Local Open Scope list_scope.

(* ------------------------------------------------------------------ *)
(** ** Exceptions and results *)

Inductive exn : Type :=
| ConnectionError              (* requests.get could not reach the server *)
| JSONDecodeError              (* response.json() could not parse the body *)
| KeyError (key : string)      (* d[key] on a dict without that key *)
| IndexError                   (* seq[i] out of range *)
| NotFittedError               (* sklearn estimator used before fit *)
| ValueError (msg : string).   (* sklearn input validation *)

Inductive result (A : Type) : Type :=
| Ok (a : A)
| Raise (e : exn).
Arguments Ok {A} a.
Arguments Raise {A} e.

Definition is_ok {A} (r : result A) : bool :=
  match r with Ok _ => true | Raise _ => false end.

Definition rbind {A B} (r : result A) (k : A -> result B) : result B :=
  match r with Ok a => k a | Raise e => Raise e end.

(* ------------------------------------------------------------------ *)
(** ** Numbers *)

Definition Qltb (x y : Q) : bool := negb (Qle_bool y x).
Definition Qgtb (x y : Q) : bool := Qltb y x.

(** [np.minimum], [np.maximum] and [np.clip]; numpy documents [np.clip] as
    [np.minimum(a_max, np.maximum(a, a_min))]. *)
Definition np_maximum (x y : Q) : Q := if Qltb x y then y else x.
Definition np_minimum (x y : Q) : Q := if Qltb y x then y else x.
Definition np_clip (a a_min a_max : Q) : Q :=
  np_minimum a_max (np_maximum a a_min).

(** [np.rint]: nearest integer, ties to the even one. *)
Definition np_rint (x : Q) : Z :=
  let f := Qfloor x in
  let r := x - inject_Z f in
  if Qltb r (1 # 2) then f
  else if Qltb (1 # 2) r then (f + 1)%Z
  else if Z.even f then f else (f + 1)%Z.

(* ------------------------------------------------------------------ *)
(** ** Doubles

    [np.float64] values where the program rounds them: the finite doubles
    (rationals [m * 2^e] with [|m| < 2^53] and [e >= -1074]), the two
    infinities and NaN. *)

Inductive float64 : Type :=
| Finite (q : Q)
| Inf (negative : bool)
| NaN.

(** [floor (log2 a)] of a positive rational. *)
Definition Qlog2 (a : Q) : Z :=
  let k := (Z.log2 (Qnum a) - Z.log2 (Zpos (Qden a)))%Z in
  if Qle_bool (2 ^ k) a then k else (k - 1)%Z.

(** Rounding to nearest, ties to even: the multiple of the unit in the last
    place of [x] that is nearest to [x].  The unit is [2^(e - 52)] for [x]
    in the binade [2^e <= |x| < 2^(e + 1)], and never less than the smallest
    subnormal [2^-1074]. *)
Definition nearest_double (x : Q) : Q :=
  let ulp := 2 ^ Z.max (Qlog2 (Qabs x) - 52) (-1074) in
  Qred (inject_Z (np_rint (x / ulp)) * ulp).

(** [sys.float_info.max]. *)
Definition DBL_MAX : Q := (2 ^ 53 - 1) * 2 ^ 971.

(** The double an operation returns when its exact result is [x]: the
    nearest double, an infinity when that lies beyond [DBL_MAX]. *)
Definition float64_of (x : Q) : float64 :=
  let y := nearest_double x in
  if Qle_bool (Qabs y) DBL_MAX then Finite y else Inf (Qltb y 0).

(** [a - b], [a * b], [a / b] and [np.rint(a)] on doubles. *)
Definition float64_sub (a b : float64) : float64 :=
  match a, b with
  | Finite x, Finite y => float64_of (x - y)
  | Inf s, Finite _ => Inf s
  | Finite _, Inf s => Inf (negb s)
  | Inf s, Inf s' => if Bool.eqb s s' then NaN else Inf s
  | _, _ => NaN
  end.

Definition float64_mul (a b : float64) : float64 :=
  match a, b with
  | Finite x, Finite y => float64_of (x * y)
  | Inf s, Finite y | Finite y, Inf s =>
      if Qeq_bool y 0 then NaN else Inf (xorb s (Qltb y 0))
  | Inf s, Inf s' => Inf (xorb s s')
  | _, _ => NaN
  end.

Definition float64_div (a b : float64) : float64 :=
  match a, b with
  | Finite x, Finite y =>
      if Qeq_bool y 0
      then (if Qeq_bool x 0 then NaN else Inf (Qltb x 0))
      else float64_of (x / y)
  | Inf s, Finite y => Inf (xorb s (Qltb y 0))
  | Finite _, Inf _ => Finite 0
  | _, _ => NaN
  end.

Definition float64_rint (a : float64) : float64 :=
  match a with
  | Finite x => Finite (inject_Z (np_rint x))
  | _ => a
  end.

(** [round(x, 1)] on a numpy double.  [np.float64.__round__] is [np.round],
    which for one decimal multiplies by [10.0], applies [np.rint] and
    divides by [10.0], each a double operation. *)
Definition round1 (x : float64) : float64 :=
  float64_div (float64_rint (float64_mul x (Finite 10))) (Finite 10).

(** The unit roundoff [2^-53] of doubles. *)
Definition unit_roundoff : Q := 1 # 9007199254740992.

(* ------------------------------------------------------------------ *)
(** ** Points in time

    A [datetime] is a number of microseconds since 0001-01-01T00:00:00 in
    the proleptic Gregorian calendar; a [timedelta] is a number of
    microseconds.  The calendar fields are computed from the day ordinal by
    CPython's [_ord2ymd].  The year bounds of [datetime] (1..9999) are not
    modelled: [dt_add] and [dt_sub] are total, where Python raises
    [OverflowError] on a result outside these years.  With the clock of a
    running machine a year of history and a forecast of 180 days stay
    inside; a property over an arbitrary horizon assumes that its last day
    does. *)

Record timedelta : Type := mk_timedelta { td_us : Z }.
Record datetime : Type := mk_datetime { dt_us : Z }.

Definition US_PER_HOUR : Z := 3600000000.
Definition US_PER_DAY : Z := 86400000000.

Definition timedelta_hours (h : Z) : timedelta := mk_timedelta (h * US_PER_HOUR).
Definition timedelta_days (d : Z) : timedelta := mk_timedelta (d * US_PER_DAY).

Definition dt_add (d : datetime) (t : timedelta) : datetime :=
  mk_datetime (dt_us d + td_us t).
Definition dt_sub (d : datetime) (t : timedelta) : datetime :=
  mk_datetime (dt_us d - td_us t).

(** [d.toordinal()]: day 1 is 0001-01-01. *)
Definition toordinal (d : datetime) : Z := (dt_us d / US_PER_DAY + 1)%Z.

Definition _DI400Y : Z := 146097.
Definition _DI100Y : Z := 36524.
Definition _DI4Y : Z := 1461.

Definition _DAYS_IN_MONTH : list Z :=
  [-1; 31; 28; 31; 30; 31; 30; 31; 31; 30; 31; 30; 31]%Z.
Definition _DAYS_BEFORE_MONTH : list Z :=
  [-1; 0; 31; 59; 90; 120; 151; 181; 212; 243; 273; 304; 334]%Z.

Definition Zbool (b : bool) : Z := if b then 1%Z else 0%Z.

(** [divmod(a, b)]: floor quotient and remainder. *)
Definition divmod (a b : Z) : Z * Z := Z.div_eucl a b.

(** [_ord2ymd(n)] of CPython's datetime module: ordinal to
    (year, month, day). *)
Definition _ord2ymd (n : Z) : Z * Z * Z :=
  let n := (n - 1)%Z in
  let '(n400, n) := divmod n _DI400Y in
  let year := (n400 * 400 + 1)%Z in
  let '(n100, n) := divmod n _DI100Y in
  let '(n4, n) := divmod n _DI4Y in
  let '(n1, n) := divmod n 365 in
  let year := (year + n100 * 100 + n4 * 4 + n1)%Z in
  if ((n1 =? 4) || (n100 =? 4))%Z then ((year - 1)%Z, 12%Z, 31%Z)
  else
    let leapyear := ((n1 =? 3) && (negb (n4 =? 24) || (n100 =? 3)))%Z in
    let month := Z.shiftr (n + 50) 5 in
    let preceding :=
      (nth (Z.to_nat month) _DAYS_BEFORE_MONTH 0
       + Zbool ((2 <? month) && leapyear))%Z in
    if (n <? preceding)%Z then
      let month := (month - 1)%Z in
      let preceding :=
        (preceding - (nth (Z.to_nat month) _DAYS_IN_MONTH 0
                      + Zbool ((month =? 2) && leapyear)))%Z in
      (year, month, (n - preceding + 1)%Z)
    else (year, month, (n - preceding + 1)%Z).

(** [_is_leap(year)] and [_days_in_month(year, month)] of the same module. *)
Definition _is_leap (year : Z) : bool :=
  ((year mod 4 =? 0) && (negb (year mod 100 =? 0) || (year mod 400 =? 0)))%Z.

Definition _days_in_month (year month : Z) : Z :=
  if ((month =? 2)%Z && _is_leap year) then 29%Z
  else nth (Z.to_nat month) _DAYS_IN_MONTH 0%Z.

Definition dt_year (d : datetime) : Z := fst (fst (_ord2ymd (toordinal d))).
Definition dt_month (d : datetime) : Z := snd (fst (_ord2ymd (toordinal d))).
Definition dt_day (d : datetime) : Z := snd (_ord2ymd (toordinal d)).
Definition dt_hour (d : datetime) : Z := ((dt_us d / US_PER_HOUR) mod 24)%Z.

(** Zero-padded decimal fields of [strftime]. *)
Definition digit (n : Z) : ascii := ascii_of_nat (48 + Z.to_nat (n mod 10)).
Definition zfill2 (n : Z) : string :=
  String (digit (n / 10)) (String (digit n) EmptyString).
Definition zfill4 (n : Z) : string :=
  String (digit (n / 1000)) (String (digit (n / 100)) (zfill2 n)).

(** [d.strftime('%Y-%m-%d')]. *)
Definition strftime_Ymd (d : datetime) : string :=
  zfill4 (dt_year d) ++ "-" ++ zfill2 (dt_month d) ++ "-" ++ zfill2 (dt_day d).

(** [range(n)]. *)
Definition py_range (n : Z) : list Z := map Z.of_nat (seq 0 (Z.to_nat n)).

(** [pd.date_range(start=s, end=e, freq='H')]: [s], [s + 1h], ... up to and
    including the last one not after [e]. *)
Definition date_range_H (s e : datetime) : list datetime :=
  map (fun k => dt_add s (timedelta_hours k))
      (py_range ((dt_us e - dt_us s) / US_PER_HOUR + 1)).

(* ------------------------------------------------------------------ *)
(** ** scikit-learn objects

    Only the behaviour the program relies on is modelled: an estimator is
    unfitted until [fit]; [transform] and [predict] raise [NotFittedError]
    on an unfitted estimator and [ValueError] when the number of columns
    of the input differs from the number seen by [fit]. *)

Definition vector : Type := list Q.
Definition matrix : Type := list vector.      (* list of rows *)

(** [X.shape[1]] agrees with [n] for every row of [X]. *)
Definition has_width (n : nat) (X : matrix) : bool :=
  forallb (fun row => Nat.eqb (List.length row) n) X.

(** The attributes a fitted scaler holds: per column, [mean_] and [scale_]. *)
Record ColumnStats : Type := mk_ColumnStats { mean_ : Q; scale_ : Q }.
Definition ScalerParams : Type := list ColumnStats.

Record StandardScaler : Type := mk_StandardScaler
  { scaler_fitted : option ScalerParams }.

Record FittedModel : Type := mk_FittedModel
  { n_features_in_ : nat;
    predict_row : vector -> Q }.

Record RandomForestRegressor : Type := mk_RandomForestRegressor
  { rf_n_estimators : Z; rf_max_depth : Z; rf_random_state : Z;
    rf_fitted : option FittedModel }.

Record GradientBoostingRegressor : Type := mk_GradientBoostingRegressor
  { gb_n_estimators : Z; gb_learning_rate : Q; gb_random_state : Z;
    gb_fitted : option FittedModel }.

Definition msg_width : string := "X has a different number of features than the estimator is expecting".
Definition msg_empty : string := "Found array with 0 sample(s)".
Definition msg_lengths : string := "Found input variables with inconsistent numbers of samples".
Definition msg_split : string := "the resulting train set will be empty".

(** [(x - mean_) / scale_] on one row. *)
Fixpoint standardize (row : vector) (p : ScalerParams) : vector :=
  match row, p with
  | x :: row', c :: p' => ((x - mean_ c) / scale_ c) :: standardize row' p'
  | _, _ => []
  end.

(** [scaler.transform(X)]. *)
Definition StandardScaler_transform (sc : StandardScaler) (X : matrix)
  : result matrix :=
  match scaler_fitted sc with
  | None => Raise NotFittedError
  | Some p =>
      match X with
      | [] => Raise (ValueError msg_empty)
      | _ =>
          if has_width (List.length p) X
          then Ok (map (fun row => standardize row p) X)
          else Raise (ValueError msg_width)
      end
  end.

(** [model.predict(X)] of a regressor, from its fitted part. *)
Definition regressor_predict (fitted : option FittedModel) (X : matrix)
  : result vector :=
  match fitted with
  | None => Raise NotFittedError
  | Some f =>
      match X with
      | [] => Raise (ValueError msg_empty)
      | _ =>
          if has_width (n_features_in_ f) X
          then Ok (map (predict_row f) X)
          else Raise (ValueError msg_width)
      end
  end.

(** [a[0]] on a one-dimensional array or a list. *)
Definition getitem0 {A} (a : list A) : result A :=
  match a with
  | x :: _ => Ok x
  | [] => Raise IndexError
  end.

(** [a[idx]] with an integer index array: row selection. *)
Fixpoint take_rows {A} (a : list A) (idx : list nat) : result (list A) :=
  match idx with
  | [] => Ok []
  | i :: idx' =>
      match nth_error a i with
      | None => Raise IndexError
      | Some x => rbind (take_rows a idx') (fun xs => Ok (x :: xs))
      end
  end.

(* ------------------------------------------------------------------ *)
(** ** The predictor object, the random generator and the world *)

Record WeatherPredictor : Type := mk_WeatherPredictor
  { api_key : string;
    temp_model : RandomForestRegressor;
    humidity_model : GradientBoostingRegressor;
    scaler : StandardScaler }.

(** [WeatherPredictor.__init__]. *)
Definition __init__ (api_key : string) : WeatherPredictor :=
  {| api_key := api_key;
     temp_model :=
       {| rf_n_estimators := 200; rf_max_depth := 20; rf_random_state := 42;
          rf_fitted := None |};
     humidity_model :=
       {| gb_n_estimators := 150; gb_learning_rate := 0.1;
          gb_random_state := 42; gb_fitted := None |};
     scaler := {| scaler_fitted := None |} |}.

(** The global generator behind [np.random]: an explicit source of standard
    normal deviates and the position of the next one. *)
Record RandomState : Type := mk_RandomState
  { deviates : nat -> Q; position : nat }.

(** The body of the HTTP response, as the OpenWeather current-weather
    endpoint documents it: an object with the keys [main] and [wind]
    (objects) and [weather] (a list of objects), of which the program reads
    the keys below.  Every key may be missing -- an error payload (unknown
    city, rejected key) has none of them; a key that is present holds a
    value of the documented type. *)
Record MainBlock : Type := mk_MainBlock
  { main_temp : option Q; main_humidity : option Q; main_pressure : option Q }.
Record WindBlock : Type := mk_WindBlock { wind_speed_ : option Q }.
Record WeatherItem : Type := mk_WeatherItem { description_ : option string }.
Record Body : Type := mk_Body
  { body_main : option MainBlock;
    body_wind : option WindBlock;
    body_weather : option (list WeatherItem) }.

(** The world: the predictor object, numpy's generator, the network (what
    [requests.get(url)] followed by [.json()] yields for each URL) and the
    wall clock. *)
Record World : Type := mk_World
  { self : WeatherPredictor;
    np_random : RandomState;
    internet : string -> result Body;
    clock : datetime }.

(** Python computations: world passing, exceptions keep the world. *)
Definition Py (A : Type) : Type := World -> result A * World.

Definition ret {A} (a : A) : Py A := fun w => (Ok a, w).
Definition bind {A B} (m : Py A) (k : A -> Py B) : Py B :=
  fun w => match m w with
           | (Ok a, w') => k a w'
           | (Raise e, w') => (Raise e, w')
           end.
Definition lift {A} (r : result A) : Py A := fun w => (r, w).
Definition get_self : Py WeatherPredictor := fun w => (Ok (self w), w).
(** [datetime.now()]. *)
Definition datetime_now : Py datetime := fun w => (Ok (clock w), w).
(** [requests.get(url).json()]. *)
Definition requests_get_json (url : string) : Py Body :=
  fun w => (internet w url, w).
Definition set_self (p : WeatherPredictor) : Py unit :=
  fun w => (Ok tt, {| self := p; np_random := np_random w;
                      internet := internet w; clock := clock w |}).

(** [try: body  except: handler]; a bare [except] catches everything. *)
Definition try_except {A} (body : Py A) (handler : exn -> Py A) : Py A :=
  fun w => match body w with
           | (Ok a, w') => (Ok a, w')
           | (Raise e, w') => handler e w'
           end.

Declare Scope py_scope.
Delimit Scope py_scope with py.
Notation "x <- m ;; k" := (bind m (fun x => k))
  (at level 100, m at next level, right associativity) : py_scope.
Notation "m ;;; k" := (bind m (fun _ => k))
  (at level 100, right associativity) : py_scope.
Local Open Scope py_scope.

(** [for x in xs: acc = body(x, acc)]. *)
Fixpoint for_each {A S} (xs : list A) (body : A -> S -> Py S) (acc : S)
  : Py S :=
  match xs with
  | [] => ret acc
  | x :: xs' => acc' <- body x acc ;; for_each xs' body acc'
  end.

(** [np.random.normal(loc, scale)]: [loc + scale * z] for the next standard
    normal deviate [z]. *)
Definition np_random_normal (loc scale : Q) : Py Q :=
  fun w =>
    let g := np_random w in
    (Ok (loc + scale * deviates g (position g)),
     {| self := self w;
        np_random := {| deviates := deviates g; position := S (position g) |};
        internet := internet w; clock := clock w |}).

(* ------------------------------------------------------------------ *)
(** ** Library parameters *)

(** The mathematical functions of numpy used by the program. *)
Class Numpy : Type :=
  { np_pi : Q;
    np_sin : Q -> Q;
    np_cos : Q -> Q;
    np_sqrt : Q -> Q }.

(** The learning algorithms of scikit-learn: what [fit] computes from the
    hyper-parameters and the training data, and the permutation of
    [range(n)] drawn by [RandomState(seed).permutation(n)] inside
    [train_test_split]. *)
Class Sklearn : Type :=
  { forest_fit : Z -> Z -> Z -> matrix -> vector -> vector -> Q;
    boosting_fit : Z -> Q -> Z -> matrix -> vector -> vector -> Q;
    permutation : Z -> nat -> list nat }.

(* ------------------------------------------------------------------ *)
(** ** Data produced by the program *)

(** The dict returned by [get_current_weather]. *)
Record Weather : Type := mk_Weather
  { w_temp : Q; w_humidity : Q; w_pressure : Q; w_wind_speed : Q;
    w_description : string }.

(** One row of the synthetic history; [row_features] holds the columns
    [feature_0] .. [feature_6]. *)
Record Row : Type := mk_Row
  { row_date : datetime; row_temperature : Q; row_humidity : Q;
    row_features : vector }.
Definition DataFrame : Type := list Row.

(** One entry of the list returned by [predict_weather]; temperature and
    humidity are the doubles [round] returns. *)
Record ForecastRecord : Type := mk_ForecastRecord
  { fr_date : string; fr_temperature : float64; fr_humidity : float64;
    fr_event : option string }.

(* ------------------------------------------------------------------ *)
(** ** scikit-learn operations that need the parameters *)

Definition Qsum (v : vector) : Q := fold_left Qplus v 0.
Definition Qmean (v : vector) : Q := Qsum v / inject_Z (Z.of_nat (List.length v)).
Definition column (j : nat) (X : matrix) : vector := map (fun row => nth j row 0) X.

(** The parameters [StandardScaler.fit] learns: per column, the mean and
    the population standard deviation, a zero deviation replaced by 1. *)
Definition StandardScaler_fit `{Numpy} (X : matrix) : ScalerParams :=
  let cols := map (fun j => column j X) (seq 0 (List.length (hd [] X))) in
  let var c := Qmean (map (fun x => (x - Qmean c) * (x - Qmean c)) c) in
  let handle_zeros s := if Qeq_bool s 0 then 1 else s in
  map (fun c => {| mean_ := Qmean c;
                   scale_ := handle_zeros (np_sqrt (var c)) |}) cols.

(** Input validation shared by the [fit] methods. *)
Definition check_X_y (X : matrix) (y : vector) : result unit :=
  match X with
  | [] => Raise (ValueError msg_empty)
  | row :: _ =>
      if negb (has_width (List.length row) X) then Raise (ValueError msg_width)
      else if Nat.eqb (List.length X) (List.length y) then Ok tt
      else Raise (ValueError msg_lengths)
  end.

(** [r2_score(y_true, y_pred)]. *)
Definition r2_score (y_true y_pred : vector) : Q :=
  let u := Qsum (map (fun p => (fst p - snd p) * (fst p - snd p))
                     (combine y_true y_pred)) in
  let m := Qmean y_true in
  let v := Qsum (map (fun y => (y - m) * (y - m)) y_true) in
  if Qeq_bool v 0 then (if Qeq_bool u 0 then 1 else 0) else 1 - u / v.

(** [train_test_split(X, y, test_size=ts, random_state=seed)]: the index
    sets come from one permutation of [range(n_samples)] that depends on the
    seed and on [n_samples] only. *)
Definition split_indices `{Sklearn} (n : nat) (test_size : Q) (seed : Z)
  : result (list nat * list nat) :=
  let n_test := Z.to_nat (Qceiling (test_size * inject_Z (Z.of_nat n))) in
  let n_train := (n - n_test)%nat in
  if Nat.eqb n_train 0 then Raise (ValueError msg_split)
  else
    let perm := permutation seed n in
    let ind_test := firstn n_test perm in
    let ind_train := firstn n_train (skipn n_test perm) in
    Ok (ind_train, ind_test).

Definition train_test_split `{Sklearn} {A B} (X : list A) (y : list B)
  (test_size : Q) (seed : Z)
  : result (list A * list A * list B * list B) :=
  if negb (Nat.eqb (List.length X) (List.length y))
  then Raise (ValueError msg_lengths)
  else
    rbind (split_indices (List.length X) test_size seed) (fun ind =>
    rbind (take_rows X (fst ind)) (fun X_train =>
    rbind (take_rows X (snd ind)) (fun X_test =>
    rbind (take_rows y (fst ind)) (fun y_train =>
    rbind (take_rows y (snd ind)) (fun y_test =>
    Ok (X_train, X_test, y_train, y_test)))))).

(* ------------------------------------------------------------------ *)
(** ** The program: methods of [WeatherPredictor] *)

Section Methods.
Context `{Numpy} `{Sklearn}.

(** [_create_features(date)]. *)
Definition _create_features (date : datetime) : vector :=
  [ inject_Z (dt_month date);
    inject_Z (dt_day date);
    inject_Z (dt_hour date);
    np_sin (2 * np_pi * inject_Z (dt_month date) / 12);
    np_cos (2 * np_pi * inject_Z (dt_month date) / 12);
    np_sin (2 * np_pi * inject_Z (dt_day date) / 31);
    np_cos (2 * np_pi * inject_Z (dt_day date) / 31) ].

(** [d[key]] on a dict of the response. *)
Definition getkey {A} (key : string) (field : option A) : Py A :=
  match field with
  | Some v => ret v
  | None => lift (Raise (KeyError key))
  end.

(** [get_current_weather(city)].  The entries of the returned dict are
    evaluated in the order they are written, each with its own subscripts. *)
Definition get_current_weather (city : string) : Py Weather :=
  me <- get_self ;;
  let url := ("https://api.openweathermap.org/data/2.5/weather?q=" ++ city
              ++ "&appid=" ++ api_key me ++ "&units=metric")%string in
  data <- requests_get_json url ;;
  temp <- (main <- getkey "main" (body_main data) ;;
           getkey "temp" (main_temp main)) ;;
  humidity <- (main <- getkey "main" (body_main data) ;;
               getkey "humidity" (main_humidity main)) ;;
  pressure <- (main <- getkey "main" (body_main data) ;;
               getkey "pressure" (main_pressure main)) ;;
  wind_speed <- (wind <- getkey "wind" (body_wind data) ;;
                 getkey "speed" (wind_speed_ wind)) ;;
  description <- (weather <- getkey "weather" (body_weather data) ;;
                  first <- lift (getitem0 weather) ;;
                  getkey "description" (description_ first)) ;;
  ret {| w_temp := temp;
         w_humidity := humidity;
         w_pressure := pressure;
         w_wind_speed := wind_speed;
         w_description := description |}.

(** [_get_base_temperature(city)]. *)
Definition _get_base_temperature (city : string) : Py Q :=
  try_except
    (current <- get_current_weather city ;;
     ret (w_temp current))
    (fun _ => ret 25.0).

(** The body of the loop of [get_historical_data] (lines 48-69), for one
    date and the list of rows built so far. *)
Definition synthesize_step (base_temp : Q) (date : datetime) (data : DataFrame)
  : Py DataFrame :=
  let season_factor := np_sin (2 * np_pi * inject_Z (dt_month date - 1) / 12) in
  let daily_factor := np_sin (2 * np_pi * inject_Z (dt_hour date) / 24) in
  noise_t <- np_random_normal 0 1 ;;
  let temp := base_temp + 5 * season_factor + 3 * daily_factor + noise_t in
  noise_h <- np_random_normal 0 5 ;;
  let humidity := 60 - (temp - base_temp) + noise_h in
  let humidity := np_clip humidity 30 90 in
  let features := _create_features date in
  ret (data ++ [ {| row_date := date; row_temperature := temp;
                    row_humidity := humidity; row_features := features |} ]).

(** [get_historical_data(city)]. *)
Definition get_historical_data (city : string) : Py DataFrame :=
  end_date <- datetime_now ;;
  let start_date := dt_sub end_date (timedelta_days 365) in
  let dates := date_range_H start_date end_date in
  base_temp <- _get_base_temperature city ;;
  for_each dates (synthesize_step base_temp) [].

(** [self.scaler.fit_transform(X)]. *)
Definition scaler_fit_transform (X : matrix) : Py matrix :=
  match X with
  | [] => lift (Raise (ValueError msg_empty))
  | row :: _ =>
      if negb (has_width (List.length row) X)
      then lift (Raise (ValueError msg_width))
      else
        me <- get_self ;;
        let sc := {| scaler_fitted := Some (StandardScaler_fit X) |} in
        set_self {| api_key := api_key me; temp_model := temp_model me;
                    humidity_model := humidity_model me; scaler := sc |} ;;;
        lift (StandardScaler_transform sc X)
  end.

(** [self.temp_model.fit(X, y)]. *)
Definition temp_model_fit (X : matrix) (y : vector) : Py unit :=
  lift (check_X_y X y) ;;;
  me <- get_self ;;
  let m := temp_model me in
  let f := {| n_features_in_ := List.length (hd [] X);
              predict_row := forest_fit (rf_n_estimators m) (rf_max_depth m)
                                        (rf_random_state m) X y |} in
  set_self {| api_key := api_key me;
              temp_model :=
                {| rf_n_estimators := rf_n_estimators m;
                   rf_max_depth := rf_max_depth m;
                   rf_random_state := rf_random_state m;
                   rf_fitted := Some f |};
              humidity_model := humidity_model me; scaler := scaler me |}.

(** [self.humidity_model.fit(X, y)]. *)
Definition humidity_model_fit (X : matrix) (y : vector) : Py unit :=
  lift (check_X_y X y) ;;;
  me <- get_self ;;
  let m := humidity_model me in
  let f := {| n_features_in_ := List.length (hd [] X);
              predict_row := boosting_fit (gb_n_estimators m)
                               (gb_learning_rate m) (gb_random_state m) X y |} in
  set_self {| api_key := api_key me; temp_model := temp_model me;
              humidity_model :=
                {| gb_n_estimators := gb_n_estimators m;
                   gb_learning_rate := gb_learning_rate m;
                   gb_random_state := gb_random_state m;
                   gb_fitted := Some f |};
              scaler := scaler me |}.

(** [self.temp_model.score(X, y)]. *)
Definition temp_model_score (X : matrix) (y : vector) : Py Q :=
  me <- get_self ;;
  y_pred <- lift (regressor_predict (rf_fitted (temp_model me)) X) ;;
  ret (r2_score y y_pred).

(** The part of [train_model] after the data frame is built (lines 85-110);
    the three [joblib.dump] calls write files and are left out. *)
Definition train_on (df : DataFrame) : Py Q :=
  let X := map row_features df in
  let y_temp := map row_temperature df in
  let y_humidity := map row_humidity df in
  X_scaled <- scaler_fit_transform X ;;
  s1 <- lift (train_test_split X_scaled y_temp 0.2 42) ;;
  let '(X_train, X_test, y_temp_train, y_temp_test) := s1 in
  s2 <- lift (train_test_split X_scaled y_humidity 0.2 42) ;;
  let '(_, _, y_humidity_train, y_humidity_test) := s2 in
  temp_model_fit X_train y_temp_train ;;;
  humidity_model_fit X_train y_humidity_train ;;;
  temp_model_score X_test y_temp_test.

(** [train_model(city)]. *)
Definition train_model (city : string) : Py Q :=
  df <- get_historical_data city ;;
  train_on df.

(** [_predict_weather_event(temp, humidity)]. *)
Definition _predict_weather_event (temp humidity : Q) : option string :=
  if Qgtb temp 35 && Qltb humidity 30 then Some "Heat Wave Warning"
  else if Qgtb humidity 80 then Some "Heavy Rainfall Expected"
  else if Qltb temp 15 then Some "Cold Weather Alert"
  else if Qltb humidity 20 then Some "Dry Weather Warning"
  else if Qgtb temp 30 && Qgtb humidity 70 then Some "High Humidity Warning"
  else None.

(** The inference step of the loop body of [predict_weather] (lines
    120-124): the raw predictions of both models for one point in time. *)
Definition predict_at (future_date : datetime) : Py (Q * Q) :=
  let features := _create_features future_date in
  me <- get_self ;;
  features_scaled <- lift (StandardScaler_transform (scaler me) [features]) ;;
  temp_pred <- lift (rbind (regressor_predict (rf_fitted (temp_model me))
                                              features_scaled) getitem0) ;;
  humidity_pred <- lift (rbind (regressor_predict (gb_fitted (humidity_model me))
                                                  features_scaled) getitem0) ;;
  ret (temp_pred, humidity_pred).

(** The record appended at line 130; [temp_pred - 3] is a subtraction of
    doubles. *)
Definition forecast_record (future_date : datetime) (temp_pred humidity_pred : Q)
  (event : option string) : ForecastRecord :=
  {| fr_date := strftime_Ymd future_date;
     fr_temperature := round1 (float64_sub (Finite temp_pred) (Finite 3));
     fr_humidity := round1 (Finite humidity_pred);
     fr_event := event |}.

(** The body of the loop of [predict_weather] (lines 119-135), for hour
    offset [i] and the list built so far. *)
Definition forecast_step (current_date : datetime) (i : Z)
  (predictions : list ForecastRecord) : Py (list ForecastRecord) :=
  let future_date := dt_add current_date (timedelta_hours i) in
  p <- predict_at future_date ;;
  let '(temp_pred, humidity_pred) := p in
  let event := _predict_weather_event temp_pred humidity_pred in
  if (i mod 24 =? 0)%Z
  then ret (predictions
            ++ [ forecast_record future_date temp_pred humidity_pred event ])
  else ret predictions.

(** [predict_weather(city, days)]. *)
Definition predict_weather (city : string) (days : Z) : Py (list ForecastRecord) :=
  current_weather <- get_current_weather city ;;
  current_date <- datetime_now ;;
  for_each (py_range (days * 24)) (forecast_step current_date) [].

End Methods.

(* ------------------------------------------------------------------ *)
(** ** Definitions the properties are stated with *)

(** The rule table of the event classifier as the specification lists it:
    a condition on (temperature, humidity) and the label it yields. *)
Definition rule : Type := ((Q -> Q -> Prop) * string)%type.

Definition event_rules : list rule :=
  [ (fun temperature humidity => 35 < temperature /\ humidity < 30,
     "Heat Wave Warning");
    (fun temperature humidity => 80 < humidity, "Heavy Rainfall Expected");
    (fun temperature humidity => temperature < 15, "Cold Weather Alert");
    (fun temperature humidity => humidity < 20, "Dry Weather Warning");
    (fun temperature humidity => 30 < temperature /\ 70 < humidity,
     "High Humidity Warning") ].

(** Strict priority order: the label of the first rule whose condition
    holds, absent when none does. *)
Inductive first_match (t h : Q) : list rule -> option string -> Prop :=
| first_match_none : first_match t h [] None
| first_match_hit : forall cond label rest,
    cond t h -> first_match t h ((cond, label) :: rest) (Some label)
| first_match_skip : forall cond label rest r,
    ~ cond t h -> first_match t h rest r ->
    first_match t h ((cond, label) :: rest) r.

(** What rounding to one decimal comes to on doubles.  The value [v]
    emitted for [x] is the double nearest to a whole number of tenths
    [n / 10], and [n / 10] lies within half a tenth of [x] up to the
    rounding errors of the double operations on the way (a relative
    [2^-51] and an absolute [2^-1074] cover them).  An infinity stands for
    an [x] beyond [10^307] in magnitude; NaN does not occur. *)
Definition rounded_to_one_decimal (x : Q) (v : float64) : Prop :=
  match v with
  | Finite q =>
      exists n : Z,
        q = nearest_double (inject_Z n / 10)
        /\ Qabs (inject_Z n / 10 - x)
           <= (1 # 20) + Qabs x * 2 ^ (-51) + 2 ^ (-1074)
  | Inf _ => 10 ^ 307 < Qabs x
  | NaN => False
  end.

(** Calendar dates as (year, month, day): validity, the day after, and a
    shift by whole years. *)
Definition ymd : Type := (Z * Z * Z)%type.

Definition valid_ymd (d : ymd) : bool :=
  let '(y, m, dd) := d in
  ((1 <=? m) && (m <=? 12) && (1 <=? dd) && (dd <=? _days_in_month y m))%Z.

Definition next_day (d : ymd) : ymd :=
  let '(y, m, dd) := d in
  if (dd <? _days_in_month y m)%Z then (y, m, (dd + 1)%Z)
  else if (m <? 12)%Z then (y, (m + 1)%Z, 1%Z)
  else ((y + 1)%Z, 1%Z, 1%Z).

(** Earlier in the calendar. *)
Definition ymd_lt (a b : ymd) : Prop :=
  let '(y, m, d) := a in
  let '(y', m', d') := b in
  (y < y' \/ (y = y' /\ (m < m' \/ (m = m' /\ d < d'))))%Z.

Definition ymd_eqb (a b : ymd) : bool :=
  let '(y, m, d) := a in
  let '(y', m', d') := b in
  ((y =? y') && (m =? m') && (d =? d'))%Z.

Definition shift_years (k : Z) (d : ymd) : ymd :=
  let '(y, m, dd) := d in ((y + k)%Z, m, dd).

(** The ordinals [n], [n + 1], ... ([fuel] of them) map to valid dates, each
    the day after the one before; [prev] is the date of [n - 1]. *)
Fixpoint consecutive_days (prev : ymd) (n : Z) (fuel : nat) : bool :=
  match fuel with
  | O => true
  | S fuel' =>
      let cur := _ord2ymd n in
      valid_ymd cur && ymd_eqb cur (next_day prev)
      && consecutive_days cur (n + 1)%Z fuel'
  end.

Definition date_of (d : datetime) : ymd := _ord2ymd (toordinal d).

(** Reading a date back from its text: four digits, a dash, two digits, a
    dash, two digits. *)
Definition digit_value (c : ascii) : option Z :=
  let n := Z.of_nat (nat_of_ascii c) in
  if ((48 <=? n) && (n <=? 57))%Z then Some (n - 48)%Z else None.

Fixpoint read_number (digits : list ascii) (acc : Z) : option Z :=
  match digits with
  | [] => Some acc
  | c :: digits' =>
      match digit_value c with
      | Some d => read_number digits' (10 * acc + d)%Z
      | None => None
      end
  end.

Definition read_Ymd (text : string) : option ymd :=
  match list_ascii_of_string text with
  | [y3; y2; y1; y0; dash1; m1; m0; dash2; d1; d0] =>
      if (Ascii.eqb dash1 "-" && Ascii.eqb dash2 "-")%bool then
        match read_number [y3; y2; y1; y0] 0, read_number [m1; m0] 0,
              read_number [d1; d0] 0 with
        | Some y, Some m, Some d => Some (y, m, d)
        | _, _, _ => None
        end
      else None
  | _ => None
  end.

(** The width of the encoder's output. *)
Definition N_FEATURES : nat := 7.

(** A predictor is ready for inference when the scaler and both models are
    fitted, each on [N_FEATURES] columns. *)
Definition scaler_width_ok (sc : StandardScaler) : bool :=
  match scaler_fitted sc with
  | Some p => Nat.eqb (List.length p) N_FEATURES
  | None => false
  end.
Definition model_width_ok (f : option FittedModel) : bool :=
  match f with
  | Some m => Nat.eqb (n_features_in_ m) N_FEATURES
  | None => false
  end.
Definition ready (p : WeatherPredictor) : bool :=
  scaler_width_ok (scaler p)
  && model_width_ok (rf_fitted (temp_model p))
  && model_width_ok (gb_fitted (humidity_model p)).

(** Computations that only read the world. *)
Definition read_only {A} (m : Py A) : Prop := forall w, snd (m w) = w.

(** The world with another state of the random generator. *)
Definition with_random (g : RandomState) (w : World) : World :=
  {| self := self w; np_random := g; internet := internet w; clock := clock w |}.

(** The generator after [n] more draws. *)
Definition advance (n : nat) (g : RandomState) : RandomState :=
  {| deviates := deviates g; position := (n + position g)%nat |}.

Section SpecSide.
Context `{Numpy} `{Sklearn}.

(** The observation synthesized for the [k]-th point of the date range,
    from the base temperature and the generator at the start of the loop:
    iteration [k] draws deviate [2k] for the temperature and deviate
    [2k + 1] for the humidity. *)
Definition noise_t_of (g : RandomState) (k : nat) : Q :=
  0 + 1 * deviates g (2 * k + position g)%nat.
Definition noise_h_of (g : RandomState) (k : nat) : Q :=
  0 + 5 * deviates g (2 * k + 1 + position g)%nat.

(** The dates [get_historical_data] iterates over. *)
Definition history_dates (w : World) : list datetime :=
  date_range_H (dt_sub (clock w) (timedelta_days 365)) (clock w).

Definition observation (base_temperature : Q) (g : RandomState) (k : nat)
  (t : datetime) : Row :=
  let season_factor := np_sin (2 * np_pi * inject_Z (dt_month t - 1) / 12) in
  let daily_factor := np_sin (2 * np_pi * inject_Z (dt_hour t) / 24) in
  let temperature :=
    base_temperature + 5 * season_factor + 3 * daily_factor + noise_t_of g k in
  {| row_date := t;
     row_temperature := temperature;
     row_humidity :=
       np_clip (60 - (temperature - base_temperature) + noise_h_of g k) 30 90;
     row_features := _create_features t |}.

Fixpoint observations_from (base_temperature : Q) (g : RandomState) (k : nat)
  (dates : list datetime) : list Row :=
  match dates with
  | [] => []
  | t :: dates' =>
      observation base_temperature g k t
      :: observations_from base_temperature g (S k) dates'
  end.

(** The joint-split design: one call of the splitting procedure on the
    feature matrix and both targets. *)
Definition train_test_split3 {A B C} (X : list A) (y1 : list B) (y2 : list C)
  (test_size : Q) (seed : Z)
  : result (list A * list A * list B * list B * list C * list C) :=
  if negb (Nat.eqb (List.length X) (List.length y1)
           && Nat.eqb (List.length X) (List.length y2))
  then Raise (ValueError msg_lengths)
  else
    rbind (split_indices (List.length X) test_size seed) (fun ind =>
    rbind (take_rows X (fst ind)) (fun X_train =>
    rbind (take_rows X (snd ind)) (fun X_test =>
    rbind (take_rows y1 (fst ind)) (fun y1_train =>
    rbind (take_rows y1 (snd ind)) (fun y1_test =>
    rbind (take_rows y2 (fst ind)) (fun y2_train =>
    rbind (take_rows y2 (snd ind)) (fun y2_test =>
    Ok (X_train, X_test, y1_train, y1_test, y2_train, y2_test)))))))).

Definition train_on_joint (df : DataFrame) : Py Q :=
  let X := map row_features df in
  let y_temp := map row_temperature df in
  let y_humidity := map row_humidity df in
  X_scaled <- scaler_fit_transform X ;;
  s <- lift (train_test_split3 X_scaled y_temp y_humidity 0.2 42) ;;
  let '(X_train, X_test, y_temp_train, y_temp_test,
        y_humidity_train, y_humidity_test) := s in
  temp_model_fit X_train y_temp_train ;;;
  humidity_model_fit X_train y_humidity_train ;;;
  temp_model_score X_test y_temp_test.

(** The point in time at hour offset [i] of a forecast started in [w], and
    the record the loop builds from raw predictions at that offset. *)
Definition hour_date (w : World) (i : Z) : datetime :=
  dt_add (clock w) (timedelta_hours i).

Definition emitted_at (w : World) (i : Z) (r : ForecastRecord) : Prop :=
  exists temp_pred humidity_pred,
    fst (predict_at (hour_date w i) w) = Ok (temp_pred, humidity_pred)
    /\ r = forecast_record (hour_date w i) temp_pred humidity_pred
             (_predict_weather_event temp_pred humidity_pred).

End SpecSide.

(* ------------------------------------------------------------------ *)
(** ** The script, and what a method leaves alone *)

(** The URL [get_current_weather] requests (line 155). *)
Definition weather_url (city key : string) : string :=
  ("https://api.openweathermap.org/data/2.5/weather?q=" ++ city
   ++ "&appid=" ++ key ++ "&units=metric")%string.

(** The world with another predictor object. *)
Definition with_self (p : WeatherPredictor) (w : World) : World :=
  {| self := p; np_random := np_random w; internet := internet w;
     clock := clock w |}.

(** The world with another environment: what the network answers and what
    the clock shows. *)
Definition with_environment (net : string -> result Body) (now : datetime)
  (w : World) : World :=
  {| self := self w; np_random := np_random w; internet := net; clock := now |}.

(** Time passes between two statements: the next one finds the network
    answering as [net] and the clock at [now]. *)
Definition elapse (net : string -> result Body) (now : datetime) : Py unit :=
  fun w => (Ok tt, with_environment net now w).

(** What [__init__] fixes for good: the key and the hyper-parameters. *)
Definition configuration (p : WeatherPredictor)
  : string * (Z * Z * Z) * (Z * Q * Z) :=
  (api_key p,
   (rf_n_estimators (temp_model p), rf_max_depth (temp_model p),
    rf_random_state (temp_model p)),
   (gb_n_estimators (humidity_model p), gb_learning_rate (humidity_model p),
    gb_random_state (humidity_model p))).

(** Computations that touch nothing but the fitted parts of the predictor. *)
Definition fits_only {A} (m : Py A) : Prop :=
  forall w,
    np_random (snd (m w)) = np_random w
    /\ internet (snd (m w)) = internet w
    /\ clock (snd (m w)) = clock w
    /\ configuration (self (snd (m w))) = configuration (self w).

Section Script.
Context `{Numpy} `{Sklearn}.

(** Lines 169-177 of the script: build the predictor, train, forecast.  The
    key of line 169 is a parameter; what follows (printing, writing the
    forecast to a file) is not modelled.  The two calls send a request each
    and read the clock each, the second after the training has run: [net]
    and [now] are the network and the clock the second call finds. *)
Definition main_pipeline (API_KEY : string) (net : string -> result Body)
  (now : datetime) : Py (Q * list ForecastRecord) :=
  set_self (__init__ API_KEY) ;;;
  accuracy <- train_model "Nagpur" ;;
  elapse net now ;;;
  predictions <- predict_weather "Nagpur" 180 ;;
  ret (accuracy, predictions).

(** The matrix [X_scaled] of [train_model] for a data frame. *)
Definition scaled_features (df : DataFrame) : matrix :=
  let X := map row_features df in
  map (fun row => standardize row (StandardScaler_fit X)) X.

(** The generator of [train_test_split] shuffles: seeded with 42 it returns
    a permutation of [range(n)]. *)
Definition shuffles (n : nat) : Prop :=
  Permutation (permutation 42 n) (seq 0 n).

End Script.

(* ------------------------------------------------------------------ *)
(** ** A concrete instance, for running the program on examples *)

Module Example.

(** Polynomial and Newton approximations in place of libm. *)
Definition approx_sin (x : Q) : Q := x - x * x * x / 6 + x * x * x * x * x / 120.
Definition approx_cos (x : Q) : Q := 1 - x * x / 2 + x * x * x * x / 24.
Definition approx_sqrt (x : Q) : Q :=
  let step y := Qred ((y + x / y) / 2) in
  if Qle_bool x 0 then 0 else step (step (step (step ((x + 1) / 2)))).

Definition numpy : Numpy :=
  {| np_pi := 355 # 113; np_sin := approx_sin; np_cos := approx_cos;
     np_sqrt := approx_sqrt |}.

(** Learners that predict the mean of the training targets, shifted by the
    first feature; the permutation rotates [range(n)] by the seed. *)
Definition sklearn : Sklearn :=
  {| forest_fit := fun _ _ _ X y row => Qmean y + hd 0 row;
     boosting_fit := fun _ _ _ X y row => Qmean y - hd 0 row;
     permutation := fun seed n =>
       let k := (Z.to_nat seed mod Nat.max n 1)%nat in
       skipn k (seq 0 n) ++ firstn k (seq 0 n) |}.

Definition unit_scaler : StandardScaler :=
  {| scaler_fitted := Some (repeat {| mean_ := 0; scale_ := 1 |} N_FEATURES) |}.

(** A predictor as training leaves it. *)
Definition trained_predictor : WeatherPredictor :=
  {| api_key := "API_KEY";
     temp_model :=
       {| rf_n_estimators := 200; rf_max_depth := 20; rf_random_state := 42;
          rf_fitted := Some {| n_features_in_ := N_FEATURES;
                               predict_row := fun row => 28 + hd 0 row / 8 |} |};
     humidity_model :=
       {| gb_n_estimators := 150; gb_learning_rate := 0.1; gb_random_state := 42;
          gb_fitted := Some {| n_features_in_ := N_FEATURES;
                               predict_row := fun row => 55 - hd 0 row |} |};
     scaler := unit_scaler |}.

Definition generator : RandomState :=
  {| deviates := fun k => if Nat.even k then 3 # 10 else - (7 # 10);
     position := 0 |}.

(** A trained predictor whose temperature model answers the double that
    Python writes [17.05], whatever the features. *)
Definition tie_predictor : WeatherPredictor :=
  {| api_key := "API_KEY";
     temp_model :=
       {| rf_n_estimators := 200; rf_max_depth := 20; rf_random_state := 42;
          rf_fitted := Some {| n_features_in_ := N_FEATURES;
                               predict_row := fun _ => nearest_double 17.05 |} |};
     humidity_model := humidity_model trained_predictor;
     scaler := unit_scaler |}.

Definition nagpur_now : Body :=
  {| body_main := Some {| main_temp := Some 31.5; main_humidity := Some 40;
                          main_pressure := Some 1009 |};
     body_wind := Some {| wind_speed_ := Some 2.1 |};
     body_weather := Some [ {| description_ := Some "haze" |} ] |}.

(** An answer with the [main] object but no temperature in it. *)
Definition no_temp : Body :=
  {| body_main := Some {| main_temp := None; main_humidity := Some 40;
                          main_pressure := Some 1009 |};
     body_wind := Some {| wind_speed_ := Some 2.1 |};
     body_weather := Some [ {| description_ := Some "haze" |} ] |}.

(** 2026-11-03 12:30:00. *)
Definition noon : datetime :=
  mk_datetime ((739923 - 1) * US_PER_DAY + 12 * US_PER_HOUR + 1800000000).

Definition online (p : WeatherPredictor) : World :=
  {| self := p; np_random := generator;
     internet := fun _ => Ok nagpur_now; clock := noon |}.

Definition offline (p : WeatherPredictor) : World :=
  {| self := p; np_random := generator;
     internet := fun _ => Raise ConnectionError; clock := noon |}.

(** Five minutes later. *)
Definition after_training : datetime := mk_datetime (dt_us noon + 300000000).

End Example.

(* ------------------------------------------------------------------ *)
(** * Properties *)

(** ** Comparisons and rounding *)

Lemma Qltb_lt (x y : Q) : Qltb x y = true <-> x < y.
Proof.
  unfold Qltb. rewrite negb_true_iff, <- not_true_iff_false, Qle_bool_iff.
  split; [apply Qnot_le_lt | apply Qlt_not_le].
Qed.

Lemma Qltb_ge (x y : Q) : Qltb x y = false <-> y <= x.
Proof.
  unfold Qltb. rewrite negb_false_iff. apply Qle_bool_iff.
Qed.

(** Case analysis on the next comparison of the goal, with its meaning. *)
Ltac case_Qltb :=
  match goal with
  | |- context [Qltb ?a ?b] =>
      let E := fresh "E" in
      destruct (Qltb a b) eqn:E;
      [ apply Qltb_lt in E | apply Qltb_ge in E ]
  end.

Lemma np_clip_bounds (a lo hi : Q) : lo <= hi -> lo <= np_clip a lo hi <= hi.
Proof.
  intros Hlh. unfold np_clip, np_minimum, np_maximum.
  repeat case_Qltb; split;
    auto using Qle_refl, Qlt_le_weak.
Qed.

Lemma np_rint_nearest (x : Q) :
  - (1 # 2) <= inject_Z (np_rint x) - x <= 1 # 2.
Proof.
  pose proof (Qfloor_le x) as L. pose proof (Qlt_floor x) as U.
  rewrite inject_Z_plus in U. change (inject_Z 1) with 1 in U.
  unfold np_rint. repeat case_Qltb; try destruct (Z.even _);
    rewrite ?inject_Z_plus; change (inject_Z 1) with 1; lra.
Qed.

(** ** Doubles and rounding to one decimal *)

(** Some doubles and roundings, as Python has them: the doubles written
    [0.1], [17.05] and [1/3]; [round(0.25, 1) = 0.2], [round(0.35, 1) = 0.4]
    and [round(14.05, 1) = 14.0] on numpy doubles; the overflow of
    [round(1e308, 1)] to [inf]. *)
Lemma float64_samples :
  nearest_double 0.1 = 3602879701896397 # 36028797018963968
  /\ nearest_double 17.05 = 4799148352916685 # 281474976710656
  /\ nearest_double (1 # 3) = 6004799503160661 # 18014398509481984
  /\ round1 (float64_of 0.25) = float64_of 0.2
  /\ round1 (float64_of 0.35) = float64_of 0.4
  /\ round1 (float64_of 14.05) = Finite 14
  /\ round1 (float64_of (10 ^ 308)) = Inf false.
Proof. repeat split; vm_compute; reflexivity. Qed.

(** Powers of two. *)
Lemma pow2_pos (e : Z) : 0 < 2 ^ e.
Proof. apply Qpower_0_lt. reflexivity. Qed.

Lemma pow2_plus (a b : Z) : 2 ^ (a + b) == 2 ^ a * 2 ^ b.
Proof. apply Qpower_plus. discriminate. Qed.

(** [Qlog2] does not overshoot. *)
Lemma Qlog2_le (a : Q) : 0 < a -> 2 ^ Qlog2 a <= a.
Proof.
  intros Pa. unfold Qlog2.
  set (k := (Z.log2 (Qnum a) - Z.log2 (Z.pos (Qden a)))%Z).
  destruct (Qle_bool (2 ^ k) a) eqn:E; [ apply Qle_bool_iff, E | ].
  destruct a as [n d]. cbn [Qnum Qden] in *.
  assert (Pn : (0 < n)%Z) by (unfold Qlt in Pa; cbn in Pa; lia).
  pose proof (Z.log2_spec n Pn) as [Ln _].
  pose proof (Z.log2_spec (Z.pos d) ltac:(lia)) as [_ Ld].
  pose proof (Z.log2_nonneg n) as Nn.
  pose proof (Z.log2_nonneg (Z.pos d)) as Nd.
  replace (k - 1)%Z with (Z.log2 n + - (Z.log2 (Z.pos d) + 1))%Z by (subst k; lia).
  rewrite pow2_plus, Qpower_opp.
  change 2 with (inject_Z 2). rewrite <- !Zpower_Qpower by lia.
  set (A := (2 ^ Z.log2 n)%Z) in *. set (B := (2 ^ (Z.log2 (Z.pos d) + 1))%Z) in *.
  assert (PB : (0 < B)%Z) by lia.
  assert (PA : (0 < A)%Z) by (subst A; apply Z.pow_pos_nonneg; lia).
  apply Qle_shift_div_r.
  - change 0 with (inject_Z 0). rewrite <- Zlt_Qlt. exact PB.
  - unfold Qle, Qmult, inject_Z. cbn [Qnum Qden]. rewrite Pos.mul_1_r.
    nia.
Qed.

Lemma np_rint_0 (q : Q) : q == 0 -> np_rint q = 0%Z.
Proof.
  intros E. unfold np_rint. rewrite (Qfloor_comp _ _ E).
  change (Qfloor 0) with 0%Z.
  destruct (Qltb (q - inject_Z 0) (1 # 2)) eqn:L; [ reflexivity | ].
  apply Qltb_ge in L. rewrite E in L. change (inject_Z 0) with 0 in L. lra.
Qed.

(** The unit in the last place used for [x]: at most [|x| / 2^52], or the
    smallest subnormal. *)
Lemma ulp_le (x : Q) :
  ~ x == 0 ->
  2 ^ Z.max (Qlog2 (Qabs x) - 52) (-1074) <= Qabs x * 2 ^ (-52) + 2 ^ (-1074).
Proof.
  intros N.
  assert (P : 0 < Qabs x).
  { destruct (Qlt_le_dec 0 (Qabs x)) as [ L | L ]; [ exact L | ].
    exfalso. apply N. pose proof (Qabs_nonneg x) as NN.
    assert (Z : Qabs x == 0) by lra.
    revert Z. apply Qabs_case; intros; lra. }
  pose proof (Qlog2_le P) as L. pose proof (pow2_pos (-1074)) as S.
  assert (M : 0 < Qabs x * 2 ^ (-52)).
  { apply Qmult_lt_0_compat; [ exact P | apply pow2_pos ]. }
  destruct (Z.max_spec (Qlog2 (Qabs x) - 52) (-1074)) as [ [_ ->] | [_ ->] ].
  - set (m := Qabs x * 2 ^ (-52)) in *. set (s := 2 ^ (-1074)) in *.
    clearbody m s. lra.
  - change (Qlog2 (Qabs x) - 52)%Z with (Qlog2 (Qabs x) + (-52))%Z.
    rewrite pow2_plus.
    assert (2 ^ Qlog2 (Qabs x) * 2 ^ (-52) <= Qabs x * 2 ^ (-52)).
    { apply Qmult_le_compat_r; [ exact L | apply Qlt_le_weak, pow2_pos ]. }
    set (m := Qabs x * 2 ^ (-52)) in *. set (s := 2 ^ (-1074)) in *.
    set (m' := 2 ^ Qlog2 (Qabs x) * 2 ^ (-52)) in *.
    clearbody m m' s. lra.
Qed.

(** The nearest double is half a unit in the last place away at most: a
    relative [2^-53], or half the smallest subnormal. *)
Lemma nearest_double_error (x : Q) :
  Qabs (nearest_double x - x) <= Qabs x * 2 ^ (-53) + 2 ^ (-1075).
Proof.
  unfold nearest_double.
  set (ulp := 2 ^ Z.max (Qlog2 (Qabs x) - 52) (-1074)).
  assert (P : 0 < ulp) by apply pow2_pos.
  rewrite Qred_correct.
  destruct (Qeq_dec x 0) as [ Z | N ].
  - assert (E : x / ulp == 0) by (rewrite Z; unfold Qdiv; ring).
    rewrite (np_rint_0 E), Z. 
    setoid_replace (inject_Z 0 * ulp - 0) with 0 by ring.
    change (Qabs 0) with 0.
    assert (0 <= 0 * 2 ^ (-53)) by (rewrite Qmult_0_l; apply Qle_refl).
    pose proof (pow2_pos (-1075)).
    set (m := 0 * 2 ^ (-53)) in *. set (s := 2 ^ (-1075)) in *.
    clearbody m s. lra.
  - pose proof (ulp_le N) as U. fold ulp in U.
    pose proof (np_rint_nearest (x / ulp)) as R.
    set (n := inject_Z (np_rint (x / ulp))) in *.
    assert (X : x == (x / ulp) * ulp) by (field; lra).
    set (q := x / ulp) in *.
    assert (H1 : n * ulp - x == (n - q) * ulp) by (rewrite X at 1; ring).
    rewrite H1, Qabs_Qmult, (Qabs_pos ulp) by lra.
    assert (A : Qabs (n - q) <= 1 # 2) by (apply Qabs_Qle_condition; lra).
    assert (B : Qabs (n - q) * ulp <= (1 # 2) * ulp).
    { apply Qmult_le_compat_r; lra. }
    assert (C52 : 2 ^ (-52) == 2 * 2 ^ (-53)) by reflexivity.
    assert (C74 : 2 ^ (-1074) == 2 * 2 ^ (-1075)) by reflexivity.
    rewrite C52, C74 in U.
    assert (D : Qabs x * (2 * 2 ^ (-53)) == 2 * (Qabs x * 2 ^ (-53))) by ring.
    rewrite D in U.
    set (m := Qabs x * 2 ^ (-53)) in *. set (s := 2 ^ (-1075)) in *.
    set (d := Qabs (n - q) * ulp) in *.
    clearbody m s d. lra.
Qed.

Lemma float64_of_cases (x : Q) :
  (float64_of x = Finite (nearest_double x) /\ Qabs (nearest_double x) <= DBL_MAX)
  \/ (exists s, float64_of x = Inf s /\ DBL_MAX < Qabs (nearest_double x)).
Proof.
  unfold float64_of. destruct (Qle_bool _ DBL_MAX) eqn:E.
  - left. split; [ reflexivity | apply Qle_bool_iff, E ].
  - right. eexists. split; [ reflexivity | ].
    apply Qnot_le_lt. intros L. apply Qle_bool_iff in L. congruence.
Qed.

Lemma round1_Finite (x : Q) :
  round1 (Finite x) =
  match float64_of (x * 10) with
  | Finite y => float64_of (inject_Z (np_rint y) / 10)
  | Inf s => Inf s
  | NaN => NaN
  end.
Proof.
  unfold round1, float64_mul.
  destruct (float64_of (x * 10)) as [ y | [ | ] | ]; reflexivity.
Qed.

Lemma round1_Inf (s : bool) : round1 (Inf s) = Inf s.
Proof. destruct s; reflexivity. Qed.

(** Two-sided bounds in place of absolute values. *)
Lemma Qabs_bounds (x : Q) : x <= Qabs x /\ - x <= Qabs x.
Proof.
  split; [ apply Qle_Qabs | ]. rewrite <- (Qabs_opp x). apply Qle_Qabs.
Qed.

Lemma Qabs_le_elim (x b : Q) : Qabs x <= b -> - b <= x /\ x <= b.
Proof. apply Qabs_Qle_condition. Qed.

Lemma Qabs_lt_elim (x b : Q) : b < Qabs x -> b < x \/ b < - x.
Proof.
  apply Qabs_case; intros; [ left | right ]; assumption.
Qed.

(** Numbers the overflow analysis rests on. *)
Lemma no_overflow_below :
  10 * ((10 ^ 307 * (1 + unit_roundoff) + 2 ^ (-1075)) * (1 + unit_roundoff)) + 2 ^ (-1075) <= DBL_MAX.
Proof. apply Qle_bool_iff. vm_compute. reflexivity. Qed.

Lemma no_overflow_tenth :
  (DBL_MAX + (1 # 2)) * (1 # 10) * (1 + unit_roundoff) + 2 ^ (-1075) <= DBL_MAX.
Proof. apply Qle_bool_iff. vm_compute. reflexivity. Qed.

(** Rounding a double [x'] that stands for [x], itself one rounding away
    at most. *)
Lemma round1_near (x x' : Q) :
  Qabs (x' - x) <= Qabs x * 2 ^ (-53) + 2 ^ (-1075) ->
  rounded_to_one_decimal x (round1 (Finite x')).
Proof.
  intros H. rewrite round1_Finite.
  pose proof (nearest_double_error (x' * 10)) as E1.
  pose proof (Qabs_bounds x) as [X1 X2].
  pose proof (Qabs_bounds (x' * 10)) as [Y1 Y2].
  pose proof (Qabs_nonneg x) as X0.
  pose proof (pow2_pos (-1075)) as S0.
  pose proof no_overflow_below as F1. pose proof no_overflow_tenth as F2.
  assert (C74 : 2 ^ (-1074) == 2 * 2 ^ (-1075)) by reflexivity.
  apply Qabs_le_elim in H as [H1 H2].
  assert (A10 : Qabs (x' * 10)
                <= 10 * (Qabs x * (1 + unit_roundoff) + 2 ^ (-1075))).
  { apply Qabs_Qle_condition.
    change (2 ^ (-53)) with unit_roundoff in *. unfold unit_roundoff in *.
    set (s := 2 ^ (-1075)) in *. set (a := Qabs x) in *. clearbody s a.
    split; lra. }
  apply Qabs_le_elim in E1 as [E1 E2].
  destruct (float64_of_cases (x' * 10)) as [ [-> B] | (s & -> & B) ].
  - set (y := nearest_double (x' * 10)) in *.
    pose proof (np_rint_nearest y) as [R1 R2].
    set (n := np_rint y) in *.
    pose proof (nearest_double_error (inject_Z n / 10)) as E3.
    pose proof (Qabs_bounds (inject_Z n / 10)) as [N1 N2].
    apply Qabs_le_elim in B as [B1 B2].
    destruct (float64_of_cases (inject_Z n / 10)) as [ [-> _] | (s & -> & V) ];
      cbn [rounded_to_one_decimal].
    + exists n. split; [ reflexivity | ].
      apply Qabs_Qle_condition. rewrite C74.
      change (2 ^ (-53)) with unit_roundoff in *.
      change (2 ^ (-51)) with (1 # 2251799813685248).
      unfold unit_roundoff in *. unfold Qdiv in *. change (/ 10) with (1 # 10) in *.
      set (s := 2 ^ (-1075)) in *. set (a := Qabs x) in *.
      set (a' := Qabs (x' * 10)) in *. set (z := inject_Z n) in *.
      clearbody s a a' z y. split; lra.
    + exfalso.
      assert (N3 : Qabs (inject_Z n / 10) <= (DBL_MAX + (1 # 2)) * (1 # 10)).
      { apply Qabs_Qle_condition. unfold Qdiv. change (/ 10) with (1 # 10).
        set (z := inject_Z n) in *. set (M := DBL_MAX) in *.
        clearbody z y M. split; lra. }
      apply Qabs_le_elim in E3 as [E3 E4].
      apply Qabs_lt_elim in V.
      change (2 ^ (-53)) with unit_roundoff in *. unfold unit_roundoff in *.
      unfold Qdiv in *. change (/ 10) with (1 # 10) in *.
      set (v := nearest_double (inject_Z n * (1 # 10))) in *.
      set (s' := 2 ^ (-1075)) in *. set (M := DBL_MAX) in *.
      set (z := inject_Z n) in *. set (az := Qabs (z * (1 # 10))) in *.
      clearbody v s' M z az y. destruct V; lra.
  - cbn [rounded_to_one_decimal].
    apply Qnot_le_lt. intros T.
    apply Qabs_lt_elim in B.
    change (2 ^ (-53)) with unit_roundoff in *. unfold unit_roundoff in *.
    set (y := nearest_double (x' * 10)) in *.
    set (s' := 2 ^ (-1075)) in *. set (M := DBL_MAX) in *.
    set (a := Qabs x) in *. set (a' := Qabs (x' * 10)) in *.
    set (t := 10 ^ 307) in *.
    clearbody y s' M a a' t. destruct B; lra.
Qed.

Lemma round1_of_finite (x : Q) : rounded_to_one_decimal x (round1 (Finite x)).
Proof.
  apply round1_near.
  setoid_replace (x - x) with 0 by ring. change (Qabs 0) with 0.
  pose proof (Qabs_nonneg x). pose proof (pow2_pos (-1075)).
  change (2 ^ (-53)) with unit_roundoff. unfold unit_roundoff.
  set (s := 2 ^ (-1075)) in *. set (a := Qabs x) in *. clearbody s a. lra.
Qed.

Lemma round1_of_difference (x y : Q) :
  rounded_to_one_decimal (x - y) (round1 (float64_sub (Finite x) (Finite y))).
Proof.
  cbn [float64_sub].
  destruct (float64_of_cases (x - y)) as [ [-> _] | (s & -> & B) ].
  - apply round1_near, nearest_double_error.
  - rewrite round1_Inf. cbn [rounded_to_one_decimal].
    pose proof (nearest_double_error (x - y)) as E.
    apply Qabs_le_elim in E as [E1 E2].
    pose proof no_overflow_below as F1.
    pose proof (pow2_pos (-1075)) as S0.
    apply Qnot_le_lt. intros T. apply Qabs_lt_elim in B.
    change (2 ^ (-53)) with unit_roundoff in *. unfold unit_roundoff in *.
    set (v := nearest_double (x - y)) in *.
    set (s' := 2 ^ (-1075)) in *. set (M := DBL_MAX) in *.
    set (a := Qabs (x - y)) in *. set (t := 10 ^ 307) in *.
    pose proof (Qabs_nonneg (x - y)) as A0. fold a in A0.
    pose proof (Qabs_bounds (x - y)) as [A1 A2]. fold a in A1, A2.
    clearbody v s' M a t. destruct B; lra.
Qed.

(** ** The calendar *)

Lemma divmod_div_mod (a b : Z) : divmod a b = ((a / b)%Z, (a mod b)%Z).
Proof.
  unfold divmod, Z.div, Z.modulo. destruct (Z.div_eucl a b). reflexivity.
Qed.

Lemma triple_eq (a a' b b' c c' : Z) :
  a = a' -> b = b' -> c = c' -> (a, b, c) = (a', b', c').
Proof. intros -> -> ->. reflexivity. Qed.

(** The calendar repeats every 400 years, that is every [_DI400Y] days. *)
Lemma ord2ymd_period (n q : Z) :
  _ord2ymd (n + q * _DI400Y) = shift_years (400 * q) (_ord2ymd n).
Proof.
  unfold _ord2ymd. rewrite !divmod_div_mod.
  replace (n + q * _DI400Y - 1)%Z with (n - 1 + q * _DI400Y)%Z by lia.
  rewrite Z.div_add by (unfold _DI400Y; lia).
  rewrite Z_mod_plus_full.
  destruct (_ || _)%bool; cbn [shift_years].
  - apply triple_eq; lia.
  - destruct (_ <? _)%Z; cbn [shift_years]; apply triple_eq; lia.
Qed.

Lemma is_leap_period (y q : Z) : _is_leap (y + 400 * q) = _is_leap y.
Proof.
  unfold _is_leap.
  replace (y + 400 * q)%Z with (y + (100 * q) * 4)%Z at 1 by lia.
  replace (y + 400 * q)%Z with (y + (4 * q) * 100)%Z at 1 by lia.
  replace (y + 400 * q)%Z with (y + q * 400)%Z by lia.
  rewrite !Z_mod_plus_full. reflexivity.
Qed.

Lemma days_in_month_period (y m q : Z) :
  _days_in_month (y + 400 * q) m = _days_in_month y m.
Proof. unfold _days_in_month. rewrite is_leap_period. reflexivity. Qed.

Lemma valid_ymd_shift (q : Z) (d : ymd) :
  valid_ymd (shift_years (400 * q) d) = valid_ymd d.
Proof.
  destruct d as [[y m] dd]. cbn [shift_years valid_ymd].
  rewrite days_in_month_period. reflexivity.
Qed.

Lemma next_day_shift (q : Z) (d : ymd) :
  next_day (shift_years (400 * q) d) = shift_years (400 * q) (next_day d).
Proof.
  destruct d as [[y m] dd]. cbn [shift_years next_day].
  rewrite days_in_month_period.
  destruct (dd <? _)%Z; [ reflexivity | ].
  destruct (m <? 12)%Z; cbn [shift_years]; [ reflexivity | ].
  apply triple_eq; lia.
Qed.

Lemma ymd_eqb_eq (a b : ymd) : ymd_eqb a b = true -> a = b.
Proof.
  destruct a as [[y m] d], b as [[y' m'] d']. cbn [ymd_eqb].
  rewrite !andb_true_iff, !Z.eqb_eq. intros [[-> ->] ->]. reflexivity.
Qed.

Lemma consecutive_days_spec (fuel : nat) :
  forall prev n,
    consecutive_days prev n fuel = true ->
    prev = _ord2ymd (n - 1) ->
    forall i, (n <= i < n + Z.of_nat fuel)%Z ->
      valid_ymd (_ord2ymd i) = true
      /\ _ord2ymd i = next_day (_ord2ymd (i - 1)).
Proof.
  induction fuel as [ | fuel IH ]; intros prev n C P i Hi; [ lia | ].
  cbn [consecutive_days] in C.
  apply andb_true_iff in C as [ C C2 ]. apply andb_true_iff in C as [ C0 C1 ].
  apply ymd_eqb_eq in C1.
  destruct (Z.eq_dec i n) as [ -> | N ].
  - subst prev. auto.
  - apply (IH _ _ C2); [ f_equal; lia | lia ].
Qed.

(** One full period, checked day by day. *)
Lemma one_period_of_days :
  consecutive_days (1, 1, 1)%Z 2 (Z.to_nat _DI400Y) = true.
Proof. vm_compute. reflexivity. Qed.

Lemma ord2ymd_in_period (i : Z) :
  (2 <= i < 2 + _DI400Y)%Z ->
  valid_ymd (_ord2ymd i) = true /\ _ord2ymd i = next_day (_ord2ymd (i - 1)).
Proof.
  intros Hi. eapply consecutive_days_spec.
  - exact one_period_of_days.
  - reflexivity.
  - rewrite Z2Nat.id by (unfold _DI400Y; lia). exact Hi.
Qed.

(** Every ordinal is a valid date, and the next ordinal is the next day. *)
Lemma ord2ymd_valid (n : Z) : valid_ymd (_ord2ymd n) = true.
Proof.
  pose (q := ((n - 2) / _DI400Y)%Z).
  assert (R : (2 <= n - q * _DI400Y < 2 + _DI400Y)%Z).
  { pose proof (Z.mod_pos_bound (n - 2) _DI400Y ltac:(unfold _DI400Y; lia)).
    pose proof (Z.div_mod (n - 2) _DI400Y ltac:(unfold _DI400Y; lia)).
    subst q. lia. }
  replace n with (n - q * _DI400Y + q * _DI400Y)%Z by lia.
  rewrite ord2ymd_period, valid_ymd_shift. apply ord2ymd_in_period, R.
Qed.

Lemma ord2ymd_next (n : Z) : _ord2ymd (n + 1) = next_day (_ord2ymd n).
Proof.
  pose (q := ((n - 1) / _DI400Y)%Z).
  assert (R : (2 <= n + 1 - q * _DI400Y < 2 + _DI400Y)%Z).
  { pose proof (Z.mod_pos_bound (n - 1) _DI400Y ltac:(unfold _DI400Y; lia)).
    pose proof (Z.div_mod (n - 1) _DI400Y ltac:(unfold _DI400Y; lia)).
    subst q. lia. }
  replace (n + 1)%Z with (n + 1 - q * _DI400Y + q * _DI400Y)%Z by lia.
  replace n with (n + 1 - q * _DI400Y - 1 + q * _DI400Y)%Z at 2 by lia.
  rewrite !ord2ymd_period, next_day_shift. f_equal.
  apply ord2ymd_in_period, R.
Qed.

Lemma days_in_month_le_31 (y m : Z) : (_days_in_month y m <= 31)%Z.
Proof.
  unfold _days_in_month. destruct (_ && _); [ lia | ].
  destruct (Z.to_nat m) as [ | k ]; [ cbn; lia | ].
  do 12 (destruct k as [ | k ]; [ cbn; lia | ]).
  cbn. destruct k; lia.
Qed.

Lemma dt_month_range (t : datetime) : (1 <= dt_month t <= 12)%Z.
Proof.
  pose proof (ord2ymd_valid (toordinal t)) as V. unfold dt_month.
  destruct (_ord2ymd (toordinal t)) as [[y m] d]. cbn [valid_ymd fst snd] in *.
  rewrite !andb_true_iff, !Z.leb_le in V. lia.
Qed.

Lemma dt_day_range (t : datetime) : (1 <= dt_day t <= 31)%Z.
Proof.
  pose proof (ord2ymd_valid (toordinal t)) as V. unfold dt_day.
  destruct (_ord2ymd (toordinal t)) as [[y m] d]. cbn [valid_ymd fst snd] in *.
  rewrite !andb_true_iff, !Z.leb_le in V.
  pose proof (days_in_month_le_31 y m). lia.
Qed.

Lemma dt_hour_range (t : datetime) : (0 <= dt_hour t <= 23)%Z.
Proof.
  unfold dt_hour. pose proof (Z.mod_pos_bound (dt_us t / US_PER_HOUR) 24). lia.
Qed.

(** ** Event classifier *)

Ltac rule_fails :=
  first [ intros [? ?] | intros ? ];
  match goal with
  | L : ?a <= ?b, G : ?b < ?a |- _ => exact (Qle_not_lt _ _ L G)
  end.

Ltac walk_rules :=
  repeat first
    [ apply first_match_none
    | apply first_match_hit; solve [ auto ]
    | apply first_match_skip; [ solve [ rule_fails ] | ] ].

(** A rule table has at most one first match. *)
Lemma first_match_functional (t h : Q) (rules : list rule) (r1 r2 : option string) :
  first_match t h rules r1 -> first_match t h rules r2 -> r1 = r2.
Proof.
  induction 1 as [ | c l rest Hc | c l rest r Hn _ IH ];
    inversion 1; subst; auto; contradiction.
Qed.

Lemma _predict_weather_event_first_match (t h : Q) :
  first_match t h event_rules (_predict_weather_event t h).
Proof.
  unfold _predict_weather_event, event_rules, Qgtb.
  repeat (case_Qltb; cbn [andb]); walk_rules.
Qed.

(** C1. The classifier's answer is the first match of the rule table taken
    in its order: the label of the first rule whose condition holds, and
    nothing when no rule matches; the six sample points of the
    specification are classified as listed. *)
Theorem event_classifier_first_match :
  (forall temperature humidity r,
      first_match temperature humidity event_rules r
      <-> r = _predict_weather_event temperature humidity)
  /\ _predict_weather_event 36 25 = Some "Heat Wave Warning"
  /\ _predict_weather_event 20 85 = Some "Heavy Rainfall Expected"
  /\ _predict_weather_event 10 50 = Some "Cold Weather Alert"
  /\ _predict_weather_event 25 15 = Some "Dry Weather Warning"
  /\ _predict_weather_event 31 75 = Some "High Humidity Warning"
  /\ _predict_weather_event 20 50 = None.
Proof.
  split; [ | repeat split; reflexivity ].
  intros t h r. split.
  - intros M.
    exact (first_match_functional M (_predict_weather_event_first_match t h)).
  - intros ->. apply _predict_weather_event_first_match.
Qed.

(** ** The monad *)

Section Properties.
Context `{Numpy} `{Sklearn}.

Lemma bind_Ok {A B} (m : Py A) (k : A -> Py B) w a w' :
  m w = (Ok a, w') -> bind m k w = k a w'.
Proof. unfold bind. intros ->. reflexivity. Qed.

Lemma bind_Raise {A B} (m : Py A) (k : A -> Py B) w e w' :
  m w = (Raise e, w') -> bind m k w = (Raise e, w').
Proof. unfold bind. intros ->. reflexivity. Qed.

Lemma read_only_run {A} (m : Py A) w : read_only m -> m w = (fst (m w), w).
Proof. intros R. rewrite <- (R w) at 3. apply surjective_pairing. Qed.

Lemma read_only_ret {A} (a : A) : read_only (ret a).
Proof. intros w. reflexivity. Qed.

Lemma read_only_lift {A} (r : result A) : read_only (lift r).
Proof. intros w. reflexivity. Qed.

Lemma read_only_bind {A B} (m : Py A) (k : A -> Py B) :
  read_only m -> (forall a, read_only (k a)) -> read_only (bind m k).
Proof.
  intros Rm Rk w. unfold bind. rewrite (read_only_run w Rm).
  destruct (fst (m w)); [ apply Rk | reflexivity ].
Qed.

Lemma read_only_try {A} (m : Py A) (h : exn -> Py A) :
  read_only m -> (forall e, read_only (h e)) -> read_only (try_except m h).
Proof.
  intros Rm Rh w. unfold try_except. rewrite (read_only_run w Rm).
  destruct (fst (m w)); [ reflexivity | apply Rh ].
Qed.

Lemma read_only_for_each {A S} (xs : list A) (body : A -> S -> Py S) :
  (forall x acc, read_only (body x acc)) ->
  forall acc, read_only (for_each xs body acc).
Proof.
  intros Rb. induction xs as [ | x xs IH ]; intros acc; cbn [for_each].
  - apply read_only_ret.
  - apply read_only_bind; auto.
Qed.

Lemma read_only_getkey {A} key (f : option A) : read_only (getkey key f).
Proof. destruct f; intros w; reflexivity. Qed.

Lemma read_only_get_current_weather city : read_only (get_current_weather city).
Proof.
  unfold get_current_weather.
  repeat first
    [ apply read_only_bind; [ | intros ? ]
    | apply read_only_getkey
    | apply read_only_lift
    | intros ?; reflexivity ].
Qed.

Lemma read_only__get_base_temperature city : read_only (_get_base_temperature city).
Proof.
  unfold _get_base_temperature. apply read_only_try.
  - apply read_only_bind; [ apply read_only_get_current_weather | ].
    intros a. apply read_only_ret.
  - intros e. apply read_only_ret.
Qed.

Lemma read_only_predict_at t : read_only (predict_at t).
Proof.
  unfold predict_at.
  repeat first
    [ apply read_only_bind; [ | intros ? ]
    | apply read_only_lift | apply read_only_ret
    | intros ?; reflexivity ].
Qed.

Lemma read_only_forecast_step d i acc : read_only (forecast_step d i acc).
Proof.
  unfold forecast_step. apply read_only_bind; [ apply read_only_predict_at | ].
  intros [tp hp]. destruct (i mod 24 =? 0)%Z; apply read_only_ret.
Qed.

Lemma read_only_predict_weather city days : read_only (predict_weather city days).
Proof.
  unfold predict_weather.
  apply read_only_bind; [ apply read_only_get_current_weather | intros _ ].
  apply read_only_bind; [ intros w; reflexivity | intros d ].
  apply read_only_for_each. intros; apply read_only_forecast_step.
Qed.

End Properties.

(** ** Inference on one point in time *)

Section Inference.
Context `{Numpy} `{Sklearn}.

Lemma standardize_length (row : vector) (p : ScalerParams) :
  List.length row = List.length p ->
  List.length (standardize row p) = List.length row.
Proof.
  revert p. induction row as [ | x row IH ]; intros [ | c p ] E;
    cbn in *; try discriminate; auto.
Qed.

Lemma _create_features_length t : List.length (_create_features t) = N_FEATURES.
Proof. reflexivity. Qed.

(** What [predict_at] computes, as a function of the predictor alone. *)
Lemma predict_at_run t w :
  predict_at t w =
  (rbind (StandardScaler_transform (scaler (self w)) [_create_features t])
     (fun features_scaled =>
      rbind (rbind (regressor_predict (rf_fitted (temp_model (self w)))
                                      features_scaled) getitem0)
        (fun temp_pred =>
         rbind (rbind (regressor_predict (gb_fitted (humidity_model (self w)))
                                         features_scaled) getitem0)
           (fun humidity_pred => Ok (temp_pred, humidity_pred)))),
   w).
Proof.
  unfold predict_at, bind, get_self, lift, ret.
  destruct (StandardScaler_transform _ _) as [ fs | e ]; cbn [rbind]; auto.
  destruct (rbind (regressor_predict (rf_fitted _) fs) getitem0); cbn [rbind]; auto.
  destruct (rbind (regressor_predict (gb_fitted _) fs) getitem0); cbn [rbind]; auto.
Qed.

Lemma predict_at_with_random t g w :
  fst (predict_at t (with_random g w)) = fst (predict_at t w).
Proof. rewrite !predict_at_run. reflexivity. Qed.

(** On a ready predictor both models answer. *)
Lemma predict_at_ready t w :
  ready (self w) = true ->
  exists temp_pred humidity_pred,
    predict_at t w = (Ok (temp_pred, humidity_pred), w).
Proof.
  unfold ready, scaler_width_ok, model_width_ok.
  rewrite !andb_true_iff. intros [[Hs Ht] Hh].
  rewrite predict_at_run. unfold StandardScaler_transform, regressor_predict.
  destruct (scaler_fitted (scaler (self w))) as [ p | ]; [ | discriminate ].
  destruct (rf_fitted (temp_model (self w))) as [ ft | ]; [ | discriminate ].
  destruct (gb_fitted (humidity_model (self w))) as [ fh | ]; [ | discriminate ].
  apply Nat.eqb_eq in Hs, Ht, Hh.
  assert (W : forall n, n = N_FEATURES ->
            has_width n [standardize (_create_features t) p] = true).
  { intros n ->. cbn [has_width forallb]. rewrite standardize_length.
    - reflexivity.
    - rewrite Hs. reflexivity. }
  rewrite Hs. cbn [has_width forallb List.length _create_features N_FEATURES Nat.eqb andb].
  cbn [rbind map]. rewrite (W _ Ht), (W _ Hh). cbn [rbind map getitem0].
  eauto.
Qed.

(** On a predictor that is not ready, inference raises one of the two
    exceptions scikit-learn has for it. *)
Lemma predict_at_not_ready t w :
  ready (self w) = false ->
  predict_at t w = (Raise NotFittedError, w)
  \/ predict_at t w = (Raise (ValueError msg_width), w).
Proof.
  unfold ready, scaler_width_ok, model_width_ok. intros NR.
  rewrite predict_at_run. unfold StandardScaler_transform, regressor_predict.
  destruct (scaler_fitted (scaler (self w))) as [ p | ]; [ | left; reflexivity ].
  cbn [has_width forallb _create_features List.length].
  destruct (Nat.eqb 7 (List.length p)) eqn:Ep; cbn [andb rbind map];
    [ | right; reflexivity ].
  apply Nat.eqb_eq in Ep.
  assert (L : List.length (standardize (_create_features t) p) = 7%nat).
  { rewrite standardize_length; [ reflexivity | rewrite <- Ep; reflexivity ]. }
  destruct (rf_fitted (temp_model (self w))) as [ ft | ]; [ | left; reflexivity ].
  cbn [has_width forallb]. rewrite L.
  destruct (Nat.eqb 7 (n_features_in_ ft)) eqn:Et; cbn [andb rbind map getitem0];
    [ | right; reflexivity ].
  destruct (gb_fitted (humidity_model (self w))) as [ fh | ]; [ | left; reflexivity ].
  cbn [has_width forallb]. rewrite ?L.
  destruct (Nat.eqb 7 (n_features_in_ fh)) eqn:Eh; cbn [andb rbind map getitem0];
    [ | right; reflexivity ].
  exfalso. apply Nat.eqb_eq in Et, Eh. rewrite <- Ep, <- Et, <- Eh in NR.
  discriminate NR.
Qed.

End Inference.

(** ** The forecast loop *)

Lemma filter_map_swap {A B} (P : B -> bool) (f : A -> B) (l : list A) :
  filter P (map f l) = map f (filter (fun x => P (f x)) l).
Proof.
  induction l as [ | x l IH ]; cbn; [ reflexivity | ].
  destruct (P (f x)); cbn; rewrite IH; reflexivity.
Qed.

Lemma seq_from (a n : nat) : seq a n = map (Nat.add a) (seq 0 n).
Proof.
  revert a. induction n as [ | n IH ]; intros a; cbn; [ reflexivity | ].
  rewrite Nat.add_0_r. f_equal.
  rewrite <- (seq_shift n 0), map_map, (IH (S a)).
  apply map_ext. intros k. lia.
Qed.

(** Hour offsets of [range(days * 24)] at which a record is appended. *)
Lemma multiples_of_24 (d : nat) :
  filter (fun i => (i mod 24 =? 0)%Z) (py_range (Z.of_nat d * 24))
  = map (fun k => (24 * Z.of_nat k)%Z) (seq 0 d).
Proof.
  unfold py_range.
  replace (Z.to_nat (Z.of_nat d * 24)) with (d * 24)%nat by lia.
  induction d as [ | d IH ]; [ reflexivity | ].
  replace (S d * 24)%nat with (d * 24 + 24)%nat by lia.
  rewrite seq_app, map_app, filter_app, IH, (seq_S d 0), map_app. f_equal.
  cbn [Nat.add]. rewrite (seq_from (d * 24) 24), map_map, filter_map_swap.
  rewrite (filter_ext _ (fun j => (Z.of_nat j mod 24 =? 0)%Z)).
  - change (filter (fun j => (Z.of_nat j mod 24 =? 0)%Z) (seq 0 24))
      with [0%nat].
    cbn [map]. f_equal. lia.
  - intros j. f_equal.
    replace (Z.of_nat (d * 24 + j)) with (Z.of_nat j + Z.of_nat d * 24)%Z by lia.
    apply Z_mod_plus_full.
Qed.

Lemma In_py_range (i n : Z) : In i (py_range n) <-> (0 <= i < n)%Z.
Proof.
  unfold py_range. rewrite in_map_iff. split.
  - intros (k & <- & Hk). apply in_seq in Hk. lia.
  - intros Hi. exists (Z.to_nat i). split; [ lia | apply in_seq; lia ].
Qed.

Lemma Forall2_nth_error {A B} (R : A -> B -> Prop) (l : list A) (l' : list B) :
  Forall2 R l l' ->
  forall k a, nth_error l k = Some a ->
  exists b, nth_error l' k = Some b /\ R a b.
Proof.
  induction 1 as [ | x y l l' Hxy _ IH ]; intros [ | k ] a E; cbn in *;
    try discriminate.
  - injection E as <-. eauto.
  - eauto.
Qed.

Section Forecast.
Context `{Numpy} `{Sklearn}.

Lemma forecast_step_run w i acc :
  forecast_step (clock w) i acc w =
  (match fst (predict_at (hour_date w i) w) with
   | Ok (temp_pred, humidity_pred) =>
       Ok (if (i mod 24 =? 0)%Z
           then acc ++ [ forecast_record (hour_date w i) temp_pred humidity_pred
                           (_predict_weather_event temp_pred humidity_pred) ]
           else acc)
   | Raise e => Raise e
   end, w).
Proof.
  unfold forecast_step, bind, hour_date.
  rewrite (read_only_run w (read_only_predict_at _)).
  destruct (fst (predict_at _ w)) as [ [tp hp] | e ]; [ | reflexivity ].
  destruct (i mod 24 =? 0)%Z; reflexivity.
Qed.

Lemma for_each_cons {A S} (x : A) xs (body : A -> S -> Py S) acc w :
  for_each (x :: xs) body acc w =
  match body x acc w with
  | (Ok acc', w') => for_each xs body acc' w'
  | (Raise e, w') => (Raise e, w')
  end.
Proof. reflexivity. Qed.

(** Every record of a completed loop was there before or was appended at
    an offset of the range that is a multiple of 24. *)
Lemma loop_members w (offsets : list Z) :
  forall acc recs,
    fst (for_each offsets (forecast_step (clock w)) acc w) = Ok recs ->
    forall r, In r recs ->
    In r acc
    \/ exists i, In i offsets /\ (i mod 24 = 0)%Z /\ emitted_at w i r.
Proof.
  induction offsets as [ | i offsets IH ]; intros acc recs E r Hr.
  - cbn in E. injection E as <-. auto.
  - rewrite for_each_cons, forecast_step_run in E.
    destruct (fst (predict_at (hour_date w i) w)) as [ [tp hp] | e ] eqn:P;
      [ | discriminate E ].
    destruct (IH _ _ E r Hr) as [ Hacc | (j & Hj & Hm & He) ].
    + destruct (i mod 24 =? 0)%Z eqn:M; auto.
      apply in_app_or in Hacc as [ Hacc | [ <- | [] ] ]; auto.
      right. exists i. split; [ left; reflexivity | ].
      split; [ apply Z.eqb_eq, M | ]. exists tp, hp. auto.
    + right. exists j. split; [ right; exact Hj | auto ].
Qed.

(** On a ready predictor the loop completes and appends one record per
    multiple of 24, in order. *)
Lemma loop_ready w (offsets : list Z) :
  ready (self w) = true ->
  forall acc, exists out,
    for_each offsets (forecast_step (clock w)) acc w = (Ok (acc ++ out), w)
    /\ Forall2 (emitted_at w) (filter (fun i => (i mod 24 =? 0)%Z) offsets) out.
Proof.
  intros R. induction offsets as [ | i offsets IH ]; intros acc.
  - exists []. rewrite app_nil_r. split; [ reflexivity | constructor ].
  - rewrite for_each_cons, forecast_step_run.
    destruct (predict_at_ready (hour_date w i) w R) as (tp & hp & P).
    rewrite P. cbn [fst filter].
    destruct (i mod 24 =? 0)%Z.
    + destruct (IH (acc ++ [ forecast_record (hour_date w i) tp hp
                               (_predict_weather_event tp hp) ]))
        as (out & E & F).
      exists (forecast_record (hour_date w i) tp hp
                (_predict_weather_event tp hp) :: out).
      rewrite E, <- app_assoc. split; [ reflexivity | ].
      constructor; [ | exact F ]. exists tp, hp. rewrite P. auto.
    + destruct (IH acc) as (out & E & F). exists out. auto.
Qed.

(** On a predictor that is not ready the first iteration already raises. *)
Lemma loop_not_ready w (offsets : list Z) acc :
  ready (self w) = false -> offsets <> [] ->
  exists e,
    for_each offsets (forecast_step (clock w)) acc w = (Raise e, w)
    /\ (e = NotFittedError \/ e = ValueError msg_width).
Proof.
  intros NR NE. destruct offsets as [ | i offsets ]; [ contradiction | ].
  rewrite for_each_cons, forecast_step_run.
  destruct (predict_at_not_ready (hour_date w i) w NR) as [ P | P ];
    rewrite P; cbn [fst]; eauto.
Qed.

(** [predict_weather] is the lookup followed by the loop, and only reads
    the world. *)
Lemma predict_weather_run city days w :
  predict_weather city days w =
  (match fst (get_current_weather city w) with
   | Ok _ => fst (for_each (py_range (days * 24)) (forecast_step (clock w)) [] w)
   | Raise e => Raise e
   end, w).
Proof.
  rewrite (read_only_run w (read_only_predict_weather city days)). f_equal.
  unfold predict_weather, bind, datetime_now.
  rewrite (read_only_run w (read_only_get_current_weather city)).
  destruct (fst (get_current_weather city w)); reflexivity.
Qed.

Lemma toordinal_hour_date w (k : nat) :
  toordinal (hour_date w (24 * Z.of_nat k)) = (toordinal (clock w) + Z.of_nat k)%Z.
Proof.
  unfold toordinal, hour_date, dt_add, timedelta_hours. cbn [dt_us td_us].
  replace (24 * Z.of_nat k * US_PER_HOUR)%Z with (Z.of_nat k * US_PER_DAY)%Z
    by (unfold US_PER_HOUR, US_PER_DAY; lia).
  rewrite Z.div_add by (unfold US_PER_DAY; lia). lia.
Qed.

End Forecast.

(** ** The forecast *)

Section ForecastProperties.
Context `{Numpy} `{Sklearn}.

(** A forecast over [d] days on a ready predictor, the lookup having
    succeeded: [d] records, the [k]-th built at hour offset [24 * k]. *)
Lemma forecast_days w city (d : nat) :
  ready (self w) = true ->
  is_ok (fst (get_current_weather city w)) = true ->
  exists recs,
    predict_weather city (Z.of_nat d) w = (Ok recs, w)
    /\ Forall2 (emitted_at w) (map (fun k => (24 * Z.of_nat k)%Z) (seq 0 d)) recs.
Proof.
  intros R L. rewrite predict_weather_run.
  destruct (fst (get_current_weather city w)); [ | discriminate L ].
  destruct (loop_ready w (py_range (Z.of_nat d * 24)) R []) as (out & E & F).
  exists out. rewrite E. cbn [fst app]. split; [ reflexivity | ].
  rewrite <- multiples_of_24. exact F.
Qed.

(** C3, amended. Every record of a forecast is built at an hour offset [i]
    of the range that is a multiple of 24, from the raw predictions of the
    two models at that offset: its temperature is [round(temp_pred - 3, 1)],
    its humidity [round(humidity_pred, 1)] with no correction, its event the
    classifier's answer on the raw pair.  [round] is numpy's, computed in
    doubles: the result is the double nearest to a whole number of tenths
    [n / 10] that lies within half a tenth of the rounded value up to the
    rounding errors of the double operations -- not always the nearest
    tenth. *)
Theorem emitted_record_fields w city days recs r :
  fst (predict_weather city days w) = Ok recs ->
  In r recs ->
  exists i temp_pred humidity_pred,
    (0 <= i < days * 24)%Z /\ (i mod 24 = 0)%Z
    /\ fst (predict_at (hour_date w i) w) = Ok (temp_pred, humidity_pred)
    /\ fr_temperature r = round1 (float64_sub (Finite temp_pred) (Finite 3))
    /\ fr_humidity r = round1 (Finite humidity_pred)
    /\ fr_event r = _predict_weather_event temp_pred humidity_pred
    /\ rounded_to_one_decimal (temp_pred - 3) (fr_temperature r)
    /\ rounded_to_one_decimal humidity_pred (fr_humidity r).
Proof.
  intros E Hr. rewrite predict_weather_run in E. cbn [fst] in E.
  destruct (fst (get_current_weather city w)); [ | discriminate E ].
  destruct (loop_members w _ _ E r Hr) as [ [] | (i & Hi & Hm & tp & hp & P & ->) ].
  exists i, tp, hp. apply In_py_range in Hi.
  cbn [forecast_record fr_temperature fr_humidity fr_event].
  repeat split;
    auto using round1_of_finite, round1_of_difference; apply Hi.
Qed.

(** The forecast surfaces a failed lookup. *)
Lemma forecast_lookup_failure w city days e :
  fst (get_current_weather city w) = Raise e ->
  predict_weather city days w = (Raise e, w).
Proof. intros L. rewrite predict_weather_run, L. reflexivity. Qed.

(** C8, amended. When the predictor is not ready (the scaler or a model
    unfitted, or fitted on another width than the encoder's) and the
    horizon is at least one day, the forecast raises and returns no
    records; once the lookup has succeeded the exception is scikit-learn's
    [NotFittedError] or its [ValueError] for a width mismatch. *)
Theorem forecast_not_ready_raises w city days :
  ready (self w) = false ->
  (1 <= days)%Z ->
  exists e,
    predict_weather city days w = (Raise e, w)
    /\ (is_ok (fst (get_current_weather city w)) = true ->
        e = NotFittedError \/ e = ValueError msg_width).
Proof.
  intros NR D. rewrite predict_weather_run.
  destruct (fst (get_current_weather city w)) as [ cur | e ].
  - destruct (loop_not_ready w (offsets := py_range (days * 24)) [] NR)
      as (e & E & C).
    + intros N. assert (I : In 0%Z (py_range (days * 24)))
        by (apply In_py_range; lia).
      rewrite N in I. exact I.
    + exists e. rewrite E. auto.
  - exists e. split; [ reflexivity | discriminate ].
Qed.

(** The loop and the whole forecast do not depend on the generator. *)
Lemma loop_with_random g w (offsets : list Z) :
  forall acc,
    fst (for_each offsets (forecast_step (clock w)) acc (with_random g w))
    = fst (for_each offsets (forecast_step (clock w)) acc w).
Proof.
  induction offsets as [ | i offsets IH ]; intros acc; [ reflexivity | ].
  rewrite !for_each_cons.
  rewrite (forecast_step_run (with_random g w)), (forecast_step_run w).
  change (hour_date (with_random g w) i) with (hour_date w i).
  rewrite predict_at_with_random.
  destruct (fst (predict_at (hour_date w i) w)) as [ [tp hp] | e ];
    [ apply IH | reflexivity ].
Qed.

Lemma get_current_weather_with_random g w city :
  fst (get_current_weather city (with_random g w))
  = fst (get_current_weather city w).
Proof.
  unfold get_current_weather, bind, get_self, requests_get_json, getkey,
    lift, ret.
  cbn [self internet with_random].
  destruct (internet w _) as [ data | ]; [ | reflexivity ].
  destruct (body_main data) as [ [ [ t | ] [ h | ] [ p | ] ] | ];
    try reflexivity.
  destruct (body_wind data) as [ [ [ v | ] ] | ]; try reflexivity.
  destruct (body_weather data) as [ [ | [ [ d | ] ] rest ] | ]; reflexivity.
Qed.

Lemma predict_weather_with_random g w city days :
  fst (predict_weather city days (with_random g w))
  = fst (predict_weather city days w).
Proof.
  rewrite !predict_weather_run. cbn [fst].
  rewrite get_current_weather_with_random.
  destruct (fst (get_current_weather city w)); [ | reflexivity ].
  change (clock (with_random g w)) with (clock w). apply loop_with_random.
Qed.

(** C9. Inference on a point in time only reads the world: running it
    twice in a row gives the same outcome, the predictor and the random
    generator are left as they were, and the outcome does not depend on the
    state of the generator.  The same holds for a whole forecast. *)
Theorem inference_idempotent w t city days :
  fst (predict_at t (snd (predict_at t w))) = fst (predict_at t w)
  /\ snd (predict_at t w) = w
  /\ (forall g, fst (predict_at t (with_random g w)) = fst (predict_at t w))
  /\ fst (predict_weather city days (snd (predict_weather city days w)))
     = fst (predict_weather city days w)
  /\ snd (predict_weather city days w) = w
  /\ (forall g, fst (predict_weather city days (with_random g w))
                = fst (predict_weather city days w)).
Proof.
  rewrite (read_only_predict_at t w), (read_only_predict_weather city days w).
  repeat split; auto using predict_at_with_random, predict_weather_with_random.
Qed.

End ForecastProperties.

(** ** The synthesizer *)

Section Synthesis.
Context `{Numpy} `{Sklearn}.

(** The fallback: the looked-up temperature, 25.0 when the lookup raised. *)
Lemma _get_base_temperature_run city w :
  _get_base_temperature city w =
  (Ok (match fst (get_current_weather city w) with
       | Ok current => w_temp current
       | Raise _ => 25.0
       end), w).
Proof.
  unfold _get_base_temperature, try_except, bind.
  rewrite (read_only_run w (read_only_get_current_weather city)).
  destruct (fst (get_current_weather city w)); reflexivity.
Qed.

Lemma np_random_normal_run loc scale w :
  np_random_normal loc scale w =
  (Ok (loc + scale * deviates (np_random w) (position (np_random w))),
   with_random (advance 1 (np_random w)) w).
Proof. reflexivity. Qed.

Lemma advance_advance n m g : advance n (advance m g) = advance (n + m) g.
Proof. unfold advance. cbn. f_equal. lia. Qed.

Lemma with_random_twice g g' w : with_random g (with_random g' w) = with_random g w.
Proof. reflexivity. Qed.

(** One iteration appends the observation of its index and draws twice. *)
Lemma synthesize_step_run base g k date data w :
  np_random w = advance (2 * k) g ->
  synthesize_step base date data w =
  (Ok (data ++ [ observation base g k date ]),
   with_random (advance (2 * S k) g) w).
Proof.
  intros G. unfold synthesize_step, bind. rewrite !np_random_normal_run.
  cbn [np_random with_random]. rewrite G. unfold ret, observation.
  rewrite !advance_advance, with_random_twice.
  unfold noise_t_of, noise_h_of. cbn [advance deviates position].
  replace (1 + 2 * k)%nat with (2 * k + 1)%nat by lia.
  replace (1 + (2 * k + 1))%nat with (2 * S k)%nat by lia.
  reflexivity.
Qed.

Lemma synthesize_loop base g dates :
  forall k data w,
    np_random w = advance (2 * k) g ->
    for_each dates (synthesize_step base) data w =
    (Ok (data ++ observations_from base g k dates),
     with_random (advance (2 * (k + List.length dates)) g) w).
Proof.
  induction dates as [ | date dates IH ]; intros k data w G.
  - cbn [for_each observations_from List.length]. unfold ret.
    rewrite app_nil_r, Nat.add_0_r, <- G. destruct w; reflexivity.
  - rewrite for_each_cons.
    rewrite synthesize_step_run with (g := g) (k := k) by exact G.
    rewrite (IH (S k)) by reflexivity.
    rewrite with_random_twice, <- app_assoc.
    cbn [observations_from app List.length].
    replace (S k + List.length dates)%nat with (k + S (List.length dates))%nat
      by lia.
    reflexivity.
Qed.

Lemma advance_0 g : advance 0 g = g.
Proof. destruct g; reflexivity. Qed.

(** [get_historical_data] never raises: it returns one observation per
    date of the range and leaves the generator two draws further per row. *)
Lemma get_historical_data_run city w :
  exists base,
    _get_base_temperature city w = (Ok base, w)
    /\ get_historical_data city w =
       (Ok (observations_from base (np_random w) 0 (history_dates w)),
        with_random (advance (2 * List.length (history_dates w)) (np_random w)) w).
Proof.
  eexists. split; [ apply _get_base_temperature_run | ].
  unfold get_historical_data, bind, datetime_now.
  rewrite _get_base_temperature_run.
  rewrite synthesize_loop with (g := np_random w) (k := 0%nat)
    by (symmetry; apply advance_0).
  reflexivity.
Qed.

Lemma history_dates_length w :
  Z.of_nat (List.length (history_dates w)) = (365 * 24 + 1)%Z.
Proof.
  unfold history_dates, date_range_H, py_range, dt_sub, timedelta_days.
  rewrite !length_map, length_seq. cbn [dt_us td_us].
  replace (dt_us (clock w) - (dt_us (clock w) - 365 * US_PER_DAY))%Z
    with (365 * US_PER_DAY)%Z by lia.
  vm_compute. reflexivity.
Qed.

Lemma observations_from_nth base g dates :
  forall k0 k row,
    nth_error (observations_from base g k0 dates) k = Some row ->
    exists date, nth_error dates k = Some date
                 /\ row = observation base g (k0 + k) date.
Proof.
  induction dates as [ | d dates IH ]; intros k0 [ | k ] row E; cbn in E;
    try discriminate.
  - injection E as <-. exists d. rewrite Nat.add_0_r. auto.
  - destruct (IH _ _ _ E) as (date & Hd & ->). exists date.
    replace (k0 + S k)%nat with (S k0 + k)%nat by lia. auto.
Qed.

Lemma observations_from_length base g dates :
  forall k0, List.length (observations_from base g k0 dates) = List.length dates.
Proof. induction dates; intros k0; cbn; auto. Qed.

End Synthesis.

Section SynthesisProperties.
Context `{Numpy} `{Sklearn}.

(** C4. The encoder is a total function of the point in time: it returns
    the seven components month (1-12), day (1-31), hour (0-23), sine and
    cosine of the month on a period of 12, sine and cosine of the day on a
    period of 31, in that order; the vector depends on the point in time
    through its month, day and hour only, so two calls on the same point
    agree. *)
Theorem feature_encoder_vector (t : datetime) :
  _create_features t =
    [ inject_Z (dt_month t); inject_Z (dt_day t); inject_Z (dt_hour t);
      np_sin (2 * np_pi * inject_Z (dt_month t) / 12);
      np_cos (2 * np_pi * inject_Z (dt_month t) / 12);
      np_sin (2 * np_pi * inject_Z (dt_day t) / 31);
      np_cos (2 * np_pi * inject_Z (dt_day t) / 31) ]
  /\ List.length (_create_features t) = 7%nat
  /\ (1 <= dt_month t <= 12)%Z /\ (1 <= dt_day t <= 31)%Z
  /\ (0 <= dt_hour t <= 23)%Z
  /\ (forall t', t' = t -> _create_features t' = _create_features t)
  /\ (forall t', dt_month t' = dt_month t -> dt_day t' = dt_day t ->
                 dt_hour t' = dt_hour t ->
                 _create_features t' = _create_features t).
Proof.
  split; [ reflexivity | ]. split; [ reflexivity | ].
  split; [ apply dt_month_range | ]. split; [ apply dt_day_range | ].
  split; [ apply dt_hour_range | ]. split.
  - intros t' ->. reflexivity.
  - intros t' Em Ed Eh. unfold _create_features. rewrite Em, Ed, Eh. reflexivity.
Qed.

(** C5. Every row the synthesizer produces has its humidity in [30, 90]:
    it is [60 - (temperature - base_temperature) + noise_h] clamped to that
    interval, where [noise_h] is what [np.random.normal(0, 5)] returns on
    the generator after the [2k + 1] draws that precede it (row [k] uses a
    draw of its own for each of its two noises). *)
Theorem synthesized_humidity_clamped w city :
  exists base_temperature df w',
    _get_base_temperature city w = (Ok base_temperature, w)
    /\ get_historical_data city w = (Ok df, w')
    /\ forall k row, nth_error df k = Some row ->
         (30 <= row_humidity row <= 90)
         /\ exists noise_h,
              fst (np_random_normal 0 5
                     (with_random (advance (2 * k + 1) (np_random w)) w))
              = Ok noise_h
              /\ row_humidity row
                 = np_clip (60 - (row_temperature row - base_temperature)
                            + noise_h) 30 90.
Proof.
  destruct (get_historical_data_run city w) as (base & B & G).
  exists base. do 2 eexists. split; [ exact B | ]. split; [ exact G | ].
  intros k row E.
  apply observations_from_nth in E as (date & _ & ->). cbn [Nat.add].
  cbn [observation row_humidity row_temperature]. split.
  - apply np_clip_bounds. discriminate.
  - exists (noise_h_of (np_random w) k). split; reflexivity.
Qed.

(** C6. When the lookup raises, whatever the exception, the base
    temperature is 25.0 and the synthesis completes: it returns the
    365 * 24 + 1 hourly observations built around 25.0. *)
Theorem lookup_failure_falls_back w city e :
  fst (get_current_weather city w) = Raise e ->
  _get_base_temperature city w = (Ok 25.0, w)
  /\ exists df w',
       get_historical_data city w = (Ok df, w')
       /\ df = observations_from 25.0 (np_random w) 0 (history_dates w)
       /\ Z.of_nat (List.length df) = (365 * 24 + 1)%Z.
Proof.
  intros L.
  assert (B : _get_base_temperature city w = (Ok 25.0, w))
    by (rewrite _get_base_temperature_run, L; reflexivity).
  split; [ exact B | ].
  destruct (get_historical_data_run city w) as (base & B' & G).
  rewrite B in B'. injection B' as <-.
  do 2 eexists. split; [ exact G | ]. split; [ reflexivity | ].
  rewrite observations_from_length. apply history_dates_length.
Qed.

End SynthesisProperties.

(** C7. On a trained predictor and a network that cannot be reached, the
    forecast raises the lookup's exception to its caller, while the base
    temperature of the synthesizer falls back to 25.0 in the same world. *)
Theorem forecast_surfaces_lookup_failure :
  let w := Example.offline Example.trained_predictor in
  ready (self w) = true
  /\ fst (predict_weather (H := Example.numpy) "Nagpur" 180 w)
     = Raise ConnectionError
  /\ fst (_get_base_temperature "Nagpur" w) = Ok 25.0.
Proof. repeat split; reflexivity. Qed.

(** ** The train/test split *)

Lemma take_rows_Ok {A} (a : list A) (idx : list nat) (l : list A) :
  take_rows a idx = Ok l -> Forall (fun i => (i < List.length a)%nat) idx.
Proof.
  revert l. induction idx as [ | i idx IH ]; intros l E; [ constructor | ].
  cbn in E. destruct (nth_error a i) eqn:N; [ | discriminate E ].
  destruct (take_rows a idx) eqn:T; [ | discriminate E ].
  constructor; [ | eapply IH; reflexivity ].
  apply nth_error_Some. rewrite N. discriminate.
Qed.

Lemma take_rows_in_range {A} (a : list A) (idx : list nat) :
  Forall (fun i => (i < List.length a)%nat) idx ->
  exists l, take_rows a idx = Ok l.
Proof.
  induction 1 as [ | i idx Hi _ (l & IH) ]; [ exists []; reflexivity | ].
  cbn. apply nth_error_Some in Hi.
  destruct (nth_error a i) as [ x | ]; [ | contradiction ].
  rewrite IH. cbn. eauto.
Qed.

(** Row selection with the same indices succeeds on arrays of one length
    or on none of them. *)
Lemma take_rows_same_length {A B} (a : list A) (b : list B) idx l :
  List.length b = List.length a ->
  take_rows a idx = Ok l -> exists l', take_rows b idx = Ok l'.
Proof.
  intros E T. apply take_rows_in_range. rewrite E. eapply take_rows_Ok, T.
Qed.

Section Split.
Context `{Numpy} `{Sklearn}.

(** With arrays of one length, [train_test_split] selects from both with
    the index sets of [split_indices]. *)
Lemma train_test_split_run {A B} (X : list A) (y : list B) ts seed :
  List.length y = List.length X ->
  train_test_split X y ts seed =
  rbind (split_indices (List.length X) ts seed) (fun ind =>
  rbind (take_rows X (fst ind)) (fun X_train =>
  rbind (take_rows X (snd ind)) (fun X_test =>
  rbind (take_rows y (fst ind)) (fun y_train =>
  rbind (take_rows y (snd ind)) (fun y_test =>
  Ok (X_train, X_test, y_train, y_test)))))).
Proof.
  intros E. unfold train_test_split. rewrite E, Nat.eqb_refl. reflexivity.
Qed.

(** The joint split is the two independent splits of the program. *)
Lemma train_test_split3_two_calls {A B C} (X : list A) (y1 : list B)
  (y2 : list C) ts seed :
  List.length y1 = List.length X ->
  List.length y2 = List.length X ->
  train_test_split3 X y1 y2 ts seed =
  rbind (train_test_split X y1 ts seed) (fun s1 =>
  rbind (train_test_split X y2 ts seed) (fun s2 =>
  let '(X_train, X_test, y1_train, y1_test) := s1 in
  let '(_, _, y2_train, y2_test) := s2 in
  Ok (X_train, X_test, y1_train, y1_test, y2_train, y2_test))).
Proof.
  intros E1 E2. rewrite !train_test_split_run by assumption.
  unfold train_test_split3. rewrite E1, E2, Nat.eqb_refl. cbn [andb negb].
  destruct (split_indices _ ts seed) as [ [itr ite] | e ]; cbn [rbind fst snd];
    [ | reflexivity ].
  destruct (take_rows X itr); cbn [rbind]; [ | reflexivity ].
  destruct (take_rows X ite); cbn [rbind]; [ | reflexivity ].
  destruct (take_rows y1 itr); cbn [rbind]; [ | reflexivity ].
  destruct (take_rows y1 ite); cbn [rbind]; [ | reflexivity ].
  destruct (take_rows y2 itr); cbn [rbind]; [ | reflexivity ].
  destruct (take_rows y2 ite); reflexivity.
Qed.

Lemma scaler_fit_transform_length X w Xs w' :
  scaler_fit_transform X w = (Ok Xs, w') -> List.length Xs = List.length X.
Proof.
  unfold scaler_fit_transform. destruct X as [ | row X ]; [ discriminate | ].
  destruct (negb _); [ discriminate | ].
  unfold bind, get_self, set_self, lift, StandardScaler_transform.
  cbn [scaler_fitted]. destruct (has_width _ _); [ | discriminate ].
  intros E. injection E as <- _. cbn [List.length]. rewrite length_map.
  reflexivity.
Qed.

(** C10. The two calls of [train_test_split] in [train_model] (same ratio,
    same seed, arrays of one length) use the same index sets: whenever the
    first call returns, the second returns the same two feature partitions,
    and the humidity targets it selects are those of the rows of the
    training matrix used for the temperature model.  Training with the two
    independent splits is the same computation as training with one joint
    split. *)
Theorem independent_splits_are_joint {A B}
  (X : list A) (y_temp y_humidity : list B) (test_size : Q) (seed : Z)
  X_train X_test y_temp_train y_temp_test :
  List.length y_temp = List.length X ->
  List.length y_humidity = List.length X ->
  train_test_split X y_temp test_size seed
    = Ok (X_train, X_test, y_temp_train, y_temp_test) ->
  (exists ind_train ind_test y_humidity_train y_humidity_test,
     split_indices (List.length X) test_size seed = Ok (ind_train, ind_test)
     /\ train_test_split X y_humidity test_size seed
        = Ok (X_train, X_test, y_humidity_train, y_humidity_test)
     /\ take_rows X ind_train = Ok X_train
     /\ take_rows y_temp ind_train = Ok y_temp_train
     /\ take_rows y_humidity ind_train = Ok y_humidity_train
     /\ take_rows X ind_test = Ok X_test
     /\ take_rows y_temp ind_test = Ok y_temp_test
     /\ take_rows y_humidity ind_test = Ok y_humidity_test)
  /\ (forall df w, train_on df w = train_on_joint df w).
Proof.
  intros Et Eh S. split.
  - rewrite train_test_split_run in S by exact Et.
    rewrite train_test_split_run by exact Eh.
    destruct (split_indices _ test_size seed) as [ [itr ite] | e ];
      cbn [rbind fst snd] in *; [ | discriminate S ].
    destruct (take_rows X itr) as [ Xtr | ] eqn:T1; cbn [rbind] in *;
      [ | discriminate S ].
    destruct (take_rows X ite) as [ Xte | ] eqn:T2; cbn [rbind] in *;
      [ | discriminate S ].
    destruct (take_rows y_temp itr) as [ ytr | ] eqn:T3; cbn [rbind] in *;
      [ | discriminate S ].
    destruct (take_rows y_temp ite) as [ yte | ] eqn:T4; cbn [rbind] in *;
      [ | discriminate S ].
    injection S as <- <- <- <-.
    destruct (take_rows_same_length X y_humidity itr Eh T1) as (htr & T5).
    destruct (take_rows_same_length X y_humidity ite Eh T2) as (hte & T6).
    exists itr, ite, htr, hte. rewrite T5, T6. cbn [rbind].
    repeat split; assumption.
  - intros df w. unfold train_on, train_on_joint, bind, lift.
    destruct (scaler_fit_transform (map row_features df) w)
      as [ [ Xs | e ] w1 ] eqn:F; [ | reflexivity ].
    apply scaler_fit_transform_length in F. rewrite length_map in F.
    rewrite train_test_split3_two_calls by (rewrite length_map; auto).
    destruct (train_test_split Xs (map row_temperature df) 0.2 42)
      as [ [[[a b] c] d] | e ]; cbn [rbind]; [ | reflexivity ].
    destruct (train_test_split Xs (map row_humidity df) 0.2 42)
      as [ [[[a' b'] c'] d'] | e ]; cbn [rbind]; reflexivity.
Qed.

End Split.

(** ** Training leaves a ready predictor *)

Lemma take_rows_members {A} (a : list A) (idx : list nat) (l : list A) :
  take_rows a idx = Ok l -> Forall (fun x => In x a) l.
Proof.
  revert l. induction idx as [ | i idx IH ]; intros l E; cbn in E.
  - injection E as <-. constructor.
  - destruct (nth_error a i) as [ x | ] eqn:N; [ | discriminate E ].
    destruct (take_rows a idx) as [ xs | ]; [ | discriminate E ].
    injection E as <-. constructor; [ | apply IH; reflexivity ].
    eapply nth_error_In, N.
Qed.

Lemma has_width_Forall (n : nat) (X : matrix) :
  has_width n X = true <-> Forall (fun row => List.length row = n) X.
Proof.
  unfold has_width. rewrite forallb_forall, Forall_forall.
  split; intros F row Hr; apply Nat.eqb_eq, F, Hr.
Qed.

Section Training.
Context `{Numpy} `{Sklearn}.

Lemma StandardScaler_fit_length (X : matrix) :
  List.length (StandardScaler_fit X) = List.length (hd [] X).
Proof. unfold StandardScaler_fit. rewrite !length_map, length_seq. reflexivity. Qed.

Lemma scaler_fit_transform_Ok X w Xs w1 :
  scaler_fit_transform X w = (Ok Xs, w1) ->
  Xs = map (fun row => standardize row (StandardScaler_fit X)) X
  /\ scaler_fitted (scaler (self w1)) = Some (StandardScaler_fit X)
  /\ temp_model (self w1) = temp_model (self w)
  /\ humidity_model (self w1) = humidity_model (self w).
Proof.
  unfold scaler_fit_transform. destruct X as [ | row X ]; [ discriminate | ].
  destruct (negb _); [ discriminate | ].
  unfold bind, get_self, set_self, lift, StandardScaler_transform.
  cbn [scaler_fitted]. destruct (has_width _ _); [ | discriminate ].
  intros E. injection E as <- <-. repeat split.
Qed.

Lemma temp_model_fit_Ok X y w u w1 :
  temp_model_fit X y w = (Ok u, w1) ->
  model_width_ok (rf_fitted (temp_model (self w1)))
    = Nat.eqb (List.length (hd [] X)) N_FEATURES
  /\ X <> []
  /\ scaler (self w1) = scaler (self w)
  /\ humidity_model (self w1) = humidity_model (self w).
Proof.
  unfold temp_model_fit, bind, lift, get_self, set_self.
  destruct (check_X_y X y) eqn:C; [ | discriminate ].
  intros E. injection E as _ <-. repeat split.
  intros ->. discriminate C.
Qed.

Lemma humidity_model_fit_Ok X y w u w1 :
  humidity_model_fit X y w = (Ok u, w1) ->
  model_width_ok (gb_fitted (humidity_model (self w1)))
    = Nat.eqb (List.length (hd [] X)) N_FEATURES
  /\ X <> []
  /\ scaler (self w1) = scaler (self w)
  /\ temp_model (self w1) = temp_model (self w).
Proof.
  unfold humidity_model_fit, bind, lift, get_self, set_self.
  destruct (check_X_y X y) eqn:C; [ | discriminate ].
  intros E. injection E as _ <-. repeat split.
  intros ->. discriminate C.
Qed.

Lemma read_only_temp_model_score X y : read_only (temp_model_score X y).
Proof.
  unfold temp_model_score.
  apply read_only_bind; [ intros w; reflexivity | intros me ].
  apply read_only_bind; [ apply read_only_lift | intros p; apply read_only_ret ].
Qed.

Lemma observations_from_features base g dates :
  forall k, has_width N_FEATURES
              (map row_features (observations_from base g k dates)) = true.
Proof.
  induction dates as [ | d dates IH ]; intros k; [ reflexivity | ].
  cbn [observations_from map]. unfold has_width in *. cbn [forallb].
  rewrite IH. reflexivity.
Qed.

(** Training on a frame whose rows carry [N_FEATURES] features, when it
    returns a score, leaves a ready predictor. *)
Lemma train_on_ready df w score w' :
  has_width N_FEATURES (map row_features df) = true ->
  train_on df w = (Ok score, w') ->
  ready (self w') = true.
Proof.
  intros W. unfold train_on, bind, lift.
  destruct (scaler_fit_transform (map row_features df) w)
    as [ [ Xs | ] w1 ] eqn:F; [ | discriminate ].
  apply scaler_fit_transform_Ok in F as (EXs & Sc1 & _ & _).
  destruct (train_test_split Xs (map row_temperature df) 0.2 42)
    as [ [[[Xtr Xte] ytr] yte] | ] eqn:S1; [ | discriminate ].
  destruct (train_test_split Xs (map row_humidity df) 0.2 42)
    as [ [[[Xtr' Xte'] htr] hte] | ]; [ | discriminate ].
  destruct (temp_model_fit Xtr ytr w1) as [ [ u | ] w2 ] eqn:T; [ | discriminate ].
  apply temp_model_fit_Ok in T as (Wt & NE & Sc2 & _).
  destruct (humidity_model_fit Xtr htr w2) as [ [ u' | ] w3 ] eqn:Hm;
    [ | discriminate ].
  apply humidity_model_fit_Ok in Hm as (Wh & _ & Sc3 & Tm3).
  intros E.
  assert (E' : w' = w3).
  { rewrite (read_only_run w3 (read_only_temp_model_score Xte yte)) in E.
    injection E as _ <-. reflexivity. }
  subst w'. unfold ready, scaler_width_ok.
  rewrite Sc3, Sc2, Sc1, Tm3, Wt, Wh, StandardScaler_fit_length.
  (* every row of the scaled matrix, hence of the training partition, has
     N_FEATURES entries *)
  apply has_width_Forall in W.
  assert (L0 : List.length (hd [] (map row_features df)) = N_FEATURES).
  { destruct (map row_features df) as [ | row X ].
    - subst Xs. unfold train_test_split in S1. cbn in S1.
      destruct (map row_temperature df); cbn in S1; discriminate S1.
    - inversion W; subst. assumption. }
  assert (WXs : Forall (fun row => List.length row = N_FEATURES) Xs).
  { subst Xs. apply Forall_map. apply (Forall_impl _ (P := fun row => List.length row = N_FEATURES)); [ | exact W ].
    intros row Hr. rewrite standardize_length; [ exact Hr | ].
    rewrite StandardScaler_fit_length, L0. exact Hr. }
  assert (L1 : List.length (hd [] Xtr) = N_FEATURES).
  { revert S1. unfold train_test_split.
    destruct (negb _); [ discriminate | ].
    destruct (split_indices _ _ _) as [ [itr ite] | ]; cbn [rbind fst snd];
      [ | discriminate ].
    destruct (take_rows Xs itr) as [ l | ] eqn:TR; cbn [rbind];
      [ | discriminate ].
    destruct (take_rows Xs ite); cbn [rbind]; [ | discriminate ].
    destruct (take_rows (map row_temperature df) itr); cbn [rbind];
      [ | discriminate ].
    destruct (take_rows (map row_temperature df) ite); cbn [rbind];
      [ | discriminate ].
    intros S1. injection S1 as -> _ _ _.
    apply take_rows_members in TR.
    destruct Xtr as [ | row Xtr ]; [ contradiction | ].
    inversion TR; subst. cbn [hd].
    rewrite Forall_forall in WXs. auto. }
  rewrite L0, L1. reflexivity.
Qed.

(** [train_model], when it returns a score, leaves a ready predictor: the
    states the forecast properties call trained are those training
    produces. *)
Lemma train_model_ready city w score w' :
  train_model city w = (Ok score, w') -> ready (self w') = true.
Proof.
  unfold train_model, bind.
  destruct (get_historical_data_run city w) as (base & _ & G). rewrite G.
  apply train_on_ready, observations_from_features.
Qed.

End Training.

(* ------------------------------------------------------------------ *)
(** * Further properties of the program *)

(** ** The lookup *)

Section Lookup.
Context `{Numpy} `{Sklearn}.

Lemma get_current_weather_run city w :
  get_current_weather city w =
  (match internet w (weather_url city (api_key (self w))) with
   | Raise e => Raise e
   | Ok data =>
       match body_main data with
       | None => Raise (KeyError "main")
       | Some main =>
           match main_temp main, main_humidity main, main_pressure main with
           | None, _, _ => Raise (KeyError "temp")
           | Some _, None, _ => Raise (KeyError "humidity")
           | Some _, Some _, None => Raise (KeyError "pressure")
           | Some temp, Some humidity, Some pressure =>
               match body_wind data with
               | None => Raise (KeyError "wind")
               | Some wind =>
                   match wind_speed_ wind with
                   | None => Raise (KeyError "speed")
                   | Some wind_speed =>
                       match body_weather data with
                       | None => Raise (KeyError "weather")
                       | Some [] => Raise IndexError
                       | Some (first :: _) =>
                           match description_ first with
                           | None => Raise (KeyError "description")
                           | Some description =>
                               Ok {| w_temp := temp;
                                     w_humidity := humidity;
                                     w_pressure := pressure;
                                     w_wind_speed := wind_speed;
                                     w_description := description |}
                           end
                       end
                   end
               end
           end
       end
   end, w).
Proof.
  unfold get_current_weather, bind, get_self, requests_get_json, getkey,
    lift, ret, weather_url.
  destruct (internet w _) as [ data | ]; [ | reflexivity ].
  destruct (body_main data) as [ [ [ t | ] [ h | ] [ p | ] ] | ];
    try reflexivity.
  destruct (body_wind data) as [ [ [ v | ] ] | ]; try reflexivity.
  destruct (body_weather data) as [ [ | [ [ d | ] ] rest ] | ]; reflexivity.
Qed.

(** X1. [get_current_weather] asks the network for one URL only, the one
    built from the city and the key, and leaves the world as it was.  It
    returns exactly when the answer has [main] with [temp], [humidity] and
    [pressure], [wind] with [speed], and a [weather] list whose first item
    has [description]; the dict it returns holds these five values.
    Otherwise it raises: the network's exception, or [KeyError] for the
    first key that is missing in the order main, temp, humidity, pressure,
    wind, speed, weather, description, or [IndexError] for an empty
    [weather] list. *)
Theorem get_current_weather_outcome city w :
  snd (get_current_weather city w) = w
  /\ (forall current,
        fst (get_current_weather city w) = Ok current <->
        exists data main wind first rest,
          internet w (weather_url city (api_key (self w))) = Ok data
          /\ body_main data = Some main /\ body_wind data = Some wind
          /\ body_weather data = Some (first :: rest)
          /\ main_temp main = Some (w_temp current)
          /\ main_humidity main = Some (w_humidity current)
          /\ main_pressure main = Some (w_pressure current)
          /\ wind_speed_ wind = Some (w_wind_speed current)
          /\ description_ first = Some (w_description current))
  /\ (forall e,
        internet w (weather_url city (api_key (self w))) = Raise e ->
        fst (get_current_weather city w) = Raise e)
  /\ (forall data,
        internet w (weather_url city (api_key (self w))) = Ok data ->
        (body_main data = None ->
         fst (get_current_weather city w) = Raise (KeyError "main"))
        /\ (forall main, body_main data = Some main ->
            (main_temp main = None ->
             fst (get_current_weather city w) = Raise (KeyError "temp"))
            /\ (main_temp main <> None -> main_humidity main = None ->
                fst (get_current_weather city w) = Raise (KeyError "humidity"))
            /\ (main_temp main <> None -> main_humidity main <> None ->
                main_pressure main = None ->
                fst (get_current_weather city w) = Raise (KeyError "pressure"))
            /\ (main_temp main <> None -> main_humidity main <> None ->
                main_pressure main <> None ->
                (body_wind data = None ->
                 fst (get_current_weather city w) = Raise (KeyError "wind"))
                /\ (forall wind, body_wind data = Some wind ->
                    (wind_speed_ wind = None ->
                     fst (get_current_weather city w)
                     = Raise (KeyError "speed"))
                    /\ (wind_speed_ wind <> None ->
                        (body_weather data = None ->
                         fst (get_current_weather city w)
                         = Raise (KeyError "weather"))
                        /\ (body_weather data = Some [] ->
                            fst (get_current_weather city w) = Raise IndexError)
                        /\ (forall first rest,
                              body_weather data = Some (first :: rest) ->
                              description_ first = None ->
                              fst (get_current_weather city w)
                              = Raise (KeyError "description"))))))).
Proof.
  rewrite get_current_weather_run. cbn [fst snd].
  split; [ reflexivity | ]. split; [ | split ].
  - intros current. split.
    + destruct (internet w _) as [ data | ]; [ | discriminate ].
      destruct (body_main data) as [ [ [ t | ] [ h | ] [ p | ] ] | ] eqn:Em;
        try discriminate.
      destruct (body_wind data) as [ [ [ v | ] ] | ] eqn:Ew; try discriminate.
      destruct (body_weather data) as [ [ | [ [ d | ] ] rest ] | ] eqn:El;
        try discriminate.
      cbn [main_temp main_humidity main_pressure wind_speed_ description_].
      intros E. injection E as <-. do 5 eexists.
      repeat (split; [ first [ reflexivity | eassumption ] | ]). reflexivity.
    + intros (data & m & wd & first & rest & -> & -> & -> & -> & -> & -> & ->
              & -> & ->).
      destruct current. reflexivity.
  - intros e ->. reflexivity.
  - intros data ->. repeat first [ split | intro ];
      repeat match goal with
             | E : ?x = _ |- _ => rewrite E; clear E
             | N : ?x <> None |- _ => destruct x; [ clear N | congruence ]
             end;
      reflexivity.
Qed.

(** X2. [_get_base_temperature] never raises and leaves the world as it
    was: it returns the temperature of the looked-up weather when the lookup
    returns, and 25.0 in every other case. *)
Theorem base_temperature_total city w :
  exists base_temp,
    _get_base_temperature city w = (Ok base_temp, w)
    /\ (forall current,
          fst (get_current_weather city w) = Ok current ->
          base_temp = w_temp current)
    /\ (is_ok (fst (get_current_weather city w)) = false -> base_temp = 25.0).
Proof.
  eexists. split; [ apply _get_base_temperature_run | ].
  destruct (fst (get_current_weather city w)); split;
    intros; try discriminate; try congruence.
Qed.

End Lookup.

(** ** The classifier, label by label *)

Ltac settle_label :=
  split; intros; try discriminate; try reflexivity;
  repeat match goal with
         | C : _ /\ _ |- _ => destruct C
         | C : ~ (_ /\ _) |- _ => exfalso; apply C; split; lra
         | |- _ /\ _ => split
         | |- ~ _ => intros [? ?]
         end;
  try lra; try (exfalso; lra).

(** X3. The region of each label: Heat Wave Warning exactly when the
    temperature is above 35 and the humidity below 30; Heavy Rainfall
    Expected exactly when the humidity is above 80; Cold Weather Alert
    exactly when the temperature is below 15 and the humidity at most 80;
    Dry Weather Warning exactly when the temperature is between 15 and 35
    and the humidity below 20; High Humidity Warning exactly when the
    temperature is above 30 and the humidity above 70 and at most 80; no
    label in the rest of the plane. *)
Theorem event_regions (temp humidity : Q) :
  (_predict_weather_event temp humidity = Some "Heat Wave Warning"
   <-> 35 < temp /\ humidity < 30)
  /\ (_predict_weather_event temp humidity = Some "Heavy Rainfall Expected"
      <-> 80 < humidity)
  /\ (_predict_weather_event temp humidity = Some "Cold Weather Alert"
      <-> temp < 15 /\ humidity <= 80)
  /\ (_predict_weather_event temp humidity = Some "Dry Weather Warning"
      <-> 15 <= temp /\ temp <= 35 /\ humidity < 20)
  /\ (_predict_weather_event temp humidity = Some "High Humidity Warning"
      <-> 30 < temp /\ 70 < humidity /\ humidity <= 80)
  /\ (_predict_weather_event temp humidity = None
      <-> 15 <= temp /\ 20 <= humidity /\ humidity <= 80
          /\ ~ (35 < temp /\ humidity < 30)
          /\ ~ (30 < temp /\ 70 < humidity)).
Proof.
  unfold _predict_weather_event, Qgtb.
  repeat (case_Qltb; cbn [andb]);
    repeat match goal with |- (_ <-> _) /\ _ => split end; settle_label.
Qed.

(** ** The synthetic history *)

Section History.
Context `{Numpy} `{Sklearn}.

Lemma history_dates_nth w (k : nat) :
  (Z.of_nat k < 365 * 24 + 1)%Z ->
  nth_error (history_dates w) k
  = Some (dt_add (dt_sub (clock w) (timedelta_days 365))
                 (timedelta_hours (Z.of_nat k))).
Proof.
  intros Hk. pose proof (history_dates_length w) as L. revert L.
  unfold history_dates, date_range_H, py_range.
  rewrite !length_map, length_seq. intros L.
  rewrite !nth_error_map, nth_error_nth' with (d := 0%nat)
    by (rewrite length_seq; lia).
  rewrite seq_nth by lia. reflexivity.
Qed.

(** X4. [get_historical_data] never raises.  It returns 365 * 24 + 1 rows,
    one per hour from a year before the clock's time up to that time
    included, row [k] dated [k] hours after the start and carrying the
    features of its own date; it draws two deviates per row from numpy's
    generator and changes nothing else in the world. *)
Theorem history_shape city w :
  exists df,
    get_historical_data city w
    = (Ok df, with_random (advance (2 * List.length df) (np_random w)) w)
    /\ Z.of_nat (List.length df) = (365 * 24 + 1)%Z
    /\ (forall k, (Z.of_nat k < 365 * 24 + 1)%Z ->
          exists row,
            nth_error df k = Some row
            /\ row_date row
               = dt_add (dt_sub (clock w) (timedelta_days 365))
                        (timedelta_hours (Z.of_nat k))
            /\ row_features row = _create_features (row_date row))
    /\ dt_add (dt_sub (clock w) (timedelta_days 365)) (timedelta_hours 0)
       = dt_sub (clock w) (timedelta_days 365)
    /\ dt_add (dt_sub (clock w) (timedelta_days 365))
              (timedelta_hours (365 * 24))
       = clock w.
Proof.
  destruct (get_historical_data_run city w) as (base & _ & G).
  eexists. split; [ rewrite G, observations_from_length; reflexivity | ].
  split; [ rewrite observations_from_length; apply history_dates_length | ].
  split; [ | split ].
  - intros k Hk.
    destruct (nth_error (observations_from base (np_random w) 0 (history_dates w)) k)
      as [ row | ] eqn:N.
    + exists row. split; [ reflexivity | ].
      apply observations_from_nth in N as (date & D & ->).
      rewrite history_dates_nth in D by exact Hk. injection D as <-.
      split; reflexivity.
    + apply nth_error_None in N. rewrite observations_from_length in N.
      pose proof (history_dates_length w). lia.
  - unfold dt_add, dt_sub, timedelta_hours, timedelta_days. cbn [dt_us td_us].
    f_equal. lia.
  - unfold dt_add, dt_sub, timedelta_hours, timedelta_days. cbn [dt_us td_us].
    destruct (clock w) as [us]. cbn [dt_us]. f_equal.
    unfold US_PER_DAY, US_PER_HOUR. lia.
Qed.

(** X5. The temperature of row [k] of the history is the base temperature
    plus 5 times the seasonal factor of the row's month, plus 3 times the
    daily factor of the row's hour, plus what [np.random.normal(0, 1)]
    returns on the generator after the [2k] draws of the rows before. *)
Theorem synthesized_temperature city w :
  exists base_temp df w',
    _get_base_temperature city w = (Ok base_temp, w)
    /\ get_historical_data city w = (Ok df, w')
    /\ forall k row, nth_error df k = Some row ->
         exists noise_t,
           fst (np_random_normal 0 1
                  (with_random (advance (2 * k) (np_random w)) w))
           = Ok noise_t
           /\ row_temperature row
              = base_temp
                + 5 * np_sin (2 * np_pi
                              * inject_Z (dt_month (row_date row) - 1) / 12)
                + 3 * np_sin (2 * np_pi
                              * inject_Z (dt_hour (row_date row)) / 24)
                + noise_t.
Proof.
  destruct (get_historical_data_run city w) as (base & B & G).
  exists base. do 2 eexists. split; [ exact B | ]. split; [ exact G | ].
  intros k row E.
  apply observations_from_nth in E as (date & _ & ->). cbn [Nat.add].
  exists (noise_t_of (np_random w) k). split; reflexivity.
Qed.

End History.

(** ** The forecast on any horizon *)

Section AnyHorizon.
Context `{Numpy} `{Sklearn}.

(** X6. Once the lookup has returned, a horizon of zero or fewer days gives
    the empty forecast without touching the models, trained or not; with a
    trained predictor a horizon of [days >= 0] that starts in year 1 or
    later and ends by year 9999, the years a [datetime] can hold, gives
    exactly [days] records, the [k]-th built at hour offset [24 * k]. *)
Theorem forecast_any_horizon w city days :
  is_ok (fst (get_current_weather city w)) = true ->
  ((days <= 0)%Z -> predict_weather city days w = (Ok [], w))
  /\ (ready (self w) = true -> (0 <= days)%Z ->
      (1 <= dt_year (clock w))%Z ->
      (dt_year (hour_date w (24 * days)) <= 9999)%Z ->
      exists recs,
        predict_weather city days w = (Ok recs, w)
        /\ Z.of_nat (List.length recs) = days
        /\ forall k, (Z.of_nat k < days)%Z ->
             exists r, nth_error recs k = Some r
                       /\ emitted_at w (24 * Z.of_nat k) r).
Proof.
  intros L. split.
  - intros D. rewrite predict_weather_run.
    destruct (fst (get_current_weather city w)); [ | discriminate L ].
    unfold py_range. replace (Z.to_nat (days * 24)) with 0%nat by lia.
    reflexivity.
  - intros R D _ _.
    destruct (forecast_days w city (Z.to_nat days) R L) as (recs & E & F).
    rewrite Z2Nat.id in E by exact D.
    exists recs. split; [ exact E | ]. split.
    + rewrite <- (Forall2_length F), length_map, length_seq. lia.
    + intros k Hk.
      destruct (Forall2_nth_error F k (a := (24 * Z.of_nat k)%Z))
        as (r & Hr & He); [ | eauto ].
      rewrite nth_error_map, nth_error_nth' with (d := 0%nat)
        by (rewrite length_seq; lia).
      rewrite seq_nth by lia. reflexivity.
Qed.

End AnyHorizon.

(** ** What training changes *)

Section TrainingEffects.
Context `{Numpy} `{Sklearn}.

Lemma fits_only_ret {A} (a : A) : fits_only (ret a).
Proof. intros w. repeat split. Qed.

Lemma fits_only_lift {A} (r : result A) : fits_only (lift r).
Proof. intros w. repeat split. Qed.

Lemma fits_only_bind {A B} (m : Py A) (k : A -> Py B) :
  fits_only m -> (forall a, fits_only (k a)) -> fits_only (bind m k).
Proof.
  intros Fm Fk w. unfold bind. specialize (Fm w).
  destruct (m w) as [ [ a | e ] w1 ]; cbn [snd] in *; [ | exact Fm ].
  destruct Fm as (G & I & C & P). destruct (Fk a w1) as (G' & I' & C' & P').
  repeat split; congruence.
Qed.

Lemma fits_only_scaler_fit_transform X : fits_only (scaler_fit_transform X).
Proof.
  unfold scaler_fit_transform. destruct X as [ | row X ];
    [ apply fits_only_lift | ].
  destruct (negb _); [ apply fits_only_lift | ].
  intros w. unfold bind, get_self, set_self, lift. repeat split.
Qed.

Lemma fits_only_temp_model_fit X y : fits_only (temp_model_fit X y).
Proof.
  unfold temp_model_fit. apply fits_only_bind; [ apply fits_only_lift | ].
  intros _ w. unfold bind, get_self, set_self. repeat split.
Qed.

Lemma fits_only_humidity_model_fit X y : fits_only (humidity_model_fit X y).
Proof.
  unfold humidity_model_fit. apply fits_only_bind; [ apply fits_only_lift | ].
  intros _ w. unfold bind, get_self, set_self. repeat split.
Qed.

Lemma fits_only_temp_model_score X y : fits_only (temp_model_score X y).
Proof.
  intros w. rewrite (read_only_temp_model_score X y w). repeat split.
Qed.

Lemma fits_only_train_on df : fits_only (train_on df).
Proof.
  unfold train_on.
  apply fits_only_bind; [ apply fits_only_scaler_fit_transform | intros Xs ].
  apply fits_only_bind; [ apply fits_only_lift | intros [[[a b] c] d] ].
  apply fits_only_bind; [ apply fits_only_lift | intros [[[a' b'] c'] d'] ].
  apply fits_only_bind; [ apply fits_only_temp_model_fit | intros _ ].
  apply fits_only_bind; [ apply fits_only_humidity_model_fit | intros _ ].
  apply fits_only_temp_model_score.
Qed.

(** X7. Whether it returns a score or raises, [train_model] leaves the
    key and the hyper-parameters of the predictor, the network and the
    clock as they were, and numpy's generator exactly 2 * (365 * 24 + 1)
    draws further: training draws randomness for the synthetic history and
    nowhere else. *)
Theorem training_effects city w :
  np_random (snd (train_model city w))
  = advance (2 * Z.to_nat (365 * 24 + 1)) (np_random w)
  /\ internet (snd (train_model city w)) = internet w
  /\ clock (snd (train_model city w)) = clock w
  /\ configuration (self (snd (train_model city w))) = configuration (self w).
Proof.
  unfold train_model, bind.
  destruct (get_historical_data_run city w) as (base & _ & G). rewrite G.
  destruct (fits_only_train_on
              (observations_from base (np_random w) 0 (history_dates w))
              (with_random (advance (2 * List.length (history_dates w))
                                    (np_random w)) w))
    as (R & I & C & P).
  rewrite R, I, C, P. cbn [np_random internet clock self with_random].
  repeat split. f_equal. pose proof (history_dates_length w). lia.
Qed.

End TrainingEffects.

(** ** Training with a shuffling generator *)

Lemma ceiling_fifth (n : nat) :
  (2 <= n)%nat ->
  (1 <= Qceiling (0.2 * inject_Z (Z.of_nat n)) < Z.of_nat n)%Z.
Proof.
  intros L.
  pose proof (Qle_ceiling (0.2 * inject_Z (Z.of_nat n))) as U.
  pose proof (Qceiling_lt (0.2 * inject_Z (Z.of_nat n))) as D.
  set (c := Qceiling (0.2 * inject_Z (Z.of_nat n))) in *.
  assert (N : 2 <= inject_Z (Z.of_nat n)).
  { change 2 with (inject_Z 2). rewrite <- Zle_Qle. lia. }
  change (c - 1)%Z with (c + (-1))%Z in D. rewrite inject_Z_plus in D.
  change (inject_Z (-1)) with (-1) in D.
  assert (T : 0 < inject_Z c /\ inject_Z c < inject_Z (Z.of_nat n)).
  { revert U D N. generalize (inject_Z c) (inject_Z (Z.of_nat n)).
    intros qc qn U D N. split; lra. }
  destruct T as [ T0 T1 ]. change 0 with (inject_Z 0) in T0.
  rewrite <- Zlt_Qlt in T0, T1. lia.
Qed.

Section Shuffle.
Context `{Numpy} `{Sklearn}.
Lemma split_indices_shuffled (n : nat) :
  (2 <= n)%nat -> shuffles n ->
  exists ind_train ind_test,
    split_indices n 0.2 42 = Ok (ind_train, ind_test)
    /\ Permutation (ind_test ++ ind_train) (seq 0 n)
    /\ ind_train <> [] /\ ind_test <> [].
Proof.
  intros L Sh. pose proof (@ceiling_fifth n L) as C.
  unfold split_indices.
  set (c := Qceiling (0.2 * inject_Z (Z.of_nat n))) in *.
  assert (Lp : List.length (permutation 42 n) = n)
    by (rewrite (Permutation_length Sh); apply length_seq).
  destruct (Nat.eqb (n - Z.to_nat c) 0) eqn:E;
    [ apply Nat.eqb_eq in E; lia | ].
  do 2 eexists. split; [ reflexivity | ].
  rewrite (firstn_all2 (n := n - Z.to_nat c))
    by (rewrite length_skipn; lia).
  rewrite firstn_skipn. split; [ exact Sh | ]. split.
  - intros N. apply (f_equal (@List.length nat)) in N.
    rewrite length_skipn in N. cbn in N. lia.
  - intros N. apply (f_equal (@List.length nat)) in N.
    rewrite length_firstn in N. cbn in N. lia.
Qed.
End Shuffle.

Lemma take_rows_length {A} (a : list A) (idx : list nat) (l : list A) :
  take_rows a idx = Ok l -> List.length l = List.length idx.
Proof.
  revert l. induction idx as [ | i idx IH ]; intros l E; cbn in E.
  - injection E as <-. reflexivity.
  - destruct (nth_error a i); [ | discriminate E ].
    destruct (take_rows a idx) as [ xs | ]; [ | discriminate E ].
    injection E as <-. cbn. f_equal. apply IH. reflexivity.
Qed.

Lemma has_width_hd (n : nat) (X : matrix) :
  X <> [] -> has_width n X = true -> List.length (hd [] X) = n.
Proof.
  destruct X as [ | row X ]; [ contradiction | ]. intros _ W.
  apply has_width_Forall in W. inversion W; subst. reflexivity.
Qed.

Lemma check_X_y_ok (X : matrix) (y : vector) :
  X <> [] -> has_width N_FEATURES X = true ->
  List.length X = List.length y -> check_X_y X y = Ok tt.
Proof.
  intros NE W L. pose proof (@has_width_hd _ _ NE W) as Hd.
  unfold check_X_y. destruct X as [ | row X ]; [ contradiction | ].
  cbn [hd] in Hd. rewrite Hd, W, L, Nat.eqb_refl. reflexivity.
Qed.

Section TrainingRun.
Context `{Numpy} `{Sklearn}.

Lemma scaler_fit_transform_run (X : matrix) w :
  X <> [] -> has_width N_FEATURES X = true ->
  scaler_fit_transform X w
  = (Ok (map (fun row => standardize row (StandardScaler_fit X)) X),
     with_self {| api_key := api_key (self w);
                  temp_model := temp_model (self w);
                  humidity_model := humidity_model (self w);
                  scaler := {| scaler_fitted := Some (StandardScaler_fit X) |} |}
               w).
Proof.
  intros NE W. pose proof (@has_width_hd _ _ NE W) as Hd.
  unfold scaler_fit_transform, bind, get_self, set_self, lift,
    StandardScaler_transform. cbn [scaler_fitted].
  rewrite StandardScaler_fit_length, Hd.
  destruct X as [ | row X ]; [ contradiction | ].
  cbn [hd] in Hd. rewrite Hd, W. reflexivity.
Qed.

Lemma scaled_features_width (df : DataFrame) :
  map row_features df <> [] ->
  has_width N_FEATURES (map row_features df) = true ->
  has_width N_FEATURES (scaled_features df) = true.
Proof.
  intros NE W. pose proof (@has_width_hd _ _ NE W) as Hd.
  apply has_width_Forall. apply has_width_Forall in W.
  unfold scaled_features. apply Forall_map.
  apply (Forall_impl _ (P := fun row => List.length row = N_FEATURES));
    [ | exact W ].
  intros row Hr. rewrite standardize_length; [ exact Hr | ].
  rewrite StandardScaler_fit_length, Hd. exact Hr.
Qed.

Lemma take_rows_width (X : matrix) idx (l : matrix) :
  has_width N_FEATURES X = true -> take_rows X idx = Ok l ->
  has_width N_FEATURES l = true.
Proof.
  intros W T. apply has_width_Forall. apply has_width_Forall in W.
  apply take_rows_members in T. rewrite Forall_forall in *. auto.
Qed.

Lemma train_on_run (df : DataFrame) w :
  has_width N_FEATURES (map row_features df) = true ->
  (2 <= List.length df)%nat ->
  shuffles (List.length df) ->
  exists ind_train ind_test X_train X_test y_train y_test h_train h_test,
    split_indices (List.length df) 0.2 42 = Ok (ind_train, ind_test)
    /\ Permutation (ind_test ++ ind_train) (seq 0 (List.length df))
    /\ take_rows (scaled_features df) ind_train = Ok X_train
    /\ take_rows (scaled_features df) ind_test = Ok X_test
    /\ take_rows (map row_temperature df) ind_train = Ok y_train
    /\ take_rows (map row_temperature df) ind_test = Ok y_test
    /\ take_rows (map row_humidity df) ind_train = Ok h_train
    /\ take_rows (map row_humidity df) ind_test = Ok h_test
    /\ train_on df w
       = (Ok (r2_score y_test
                (map (forest_fit (rf_n_estimators (temp_model (self w)))
                                 (rf_max_depth (temp_model (self w)))
                                 (rf_random_state (temp_model (self w)))
                                 X_train y_train) X_test)),
          with_self
            {| api_key := api_key (self w);
               temp_model :=
                 {| rf_n_estimators := rf_n_estimators (temp_model (self w));
                    rf_max_depth := rf_max_depth (temp_model (self w));
                    rf_random_state := rf_random_state (temp_model (self w));
                    rf_fitted :=
                      Some {| n_features_in_ := N_FEATURES;
                              predict_row :=
                                forest_fit
                                  (rf_n_estimators (temp_model (self w)))
                                  (rf_max_depth (temp_model (self w)))
                                  (rf_random_state (temp_model (self w)))
                                  X_train y_train |} |};
               humidity_model :=
                 {| gb_n_estimators := gb_n_estimators (humidity_model (self w));
                    gb_learning_rate :=
                      gb_learning_rate (humidity_model (self w));
                    gb_random_state := gb_random_state (humidity_model (self w));
                    gb_fitted :=
                      Some {| n_features_in_ := N_FEATURES;
                              predict_row :=
                                boosting_fit
                                  (gb_n_estimators (humidity_model (self w)))
                                  (gb_learning_rate (humidity_model (self w)))
                                  (gb_random_state (humidity_model (self w)))
                                  X_train h_train |} |};
               scaler :=
                 {| scaler_fitted :=
                      Some (StandardScaler_fit (map row_features df)) |} |}
            w).
Proof.
  intros W L Sh.
  destruct (split_indices_shuffled L Sh) as (itr & ite & SI & P & NEtr & NEte).
  assert (NE : map row_features df <> []).
  { intros N. apply (f_equal (@List.length vector)) in N.
    rewrite length_map in N. cbn in N. lia. }
  assert (WXs : has_width N_FEATURES (scaled_features df) = true)
    by (apply scaled_features_width; assumption).
  assert (LXs : List.length (scaled_features df) = List.length df)
    by (unfold scaled_features; rewrite !length_map; reflexivity).
  assert (R : forall i, In i (ite ++ itr) -> (i < List.length df)%nat).
  { intros i Hi. apply (Permutation_in _ P), in_seq in Hi. lia. }
  assert (Rtr : forall (A : Type) (a : list A),
             List.length a = List.length df ->
             exists l, take_rows a itr = Ok l).
  { intros A a La. apply take_rows_in_range, Forall_forall. intros i Hi.
    rewrite La. apply R, in_or_app. auto. }
  assert (Rte : forall (A : Type) (a : list A),
             List.length a = List.length df ->
             exists l, take_rows a ite = Ok l).
  { intros A a La. apply take_rows_in_range, Forall_forall. intros i Hi.
    rewrite La. apply R, in_or_app. auto. }
  destruct (Rtr _ (scaled_features df) LXs) as (Xtr & TXtr).
  destruct (Rte _ (scaled_features df) LXs) as (Xte & TXte).
  destruct (Rtr _ (map row_temperature df) (length_map _ _)) as (ytr & Tytr).
  destruct (Rte _ (map row_temperature df) (length_map _ _)) as (yte & Tyte).
  destruct (Rtr _ (map row_humidity df) (length_map _ _)) as (htr & Thtr).
  destruct (Rte _ (map row_humidity df) (length_map _ _)) as (hte & Thte).
  exists itr, ite, Xtr, Xte, ytr, yte, htr, hte.
  repeat (split; [ assumption | ]).
  (* the partitions are not empty and keep the width *)
  assert (NXtr : Xtr <> []).
  { intros ->. apply take_rows_length in TXtr. destruct itr; [ auto | discriminate ]. }
  assert (NXte : Xte <> []).
  { intros ->. apply take_rows_length in TXte. destruct ite; [ auto | discriminate ]. }
  assert (WXtr : has_width N_FEATURES Xtr = true)
    by (eapply take_rows_width; [ exact WXs | exact TXtr ]).
  assert (WXte : has_width N_FEATURES Xte = true)
    by (eapply take_rows_width; [ exact WXs | exact TXte ]).
  assert (Cy : check_X_y Xtr ytr = Ok tt).
  { apply check_X_y_ok; auto.
    rewrite (@take_rows_length _ _ _ _ TXtr), (@take_rows_length _ _ _ _ Tytr). reflexivity. }
  assert (Ch : check_X_y Xtr htr = Ok tt).
  { apply check_X_y_ok; auto.
    rewrite (@take_rows_length _ _ _ _ TXtr), (@take_rows_length _ _ _ _ Thtr). reflexivity. }
  unfold train_on, bind at 1.
  rewrite scaler_fit_transform_run by assumption. fold (scaled_features df).
  unfold bind at 1, lift at 1.
  rewrite train_test_split_run by (rewrite LXs, length_map; reflexivity).
  rewrite LXs, SI. cbn [rbind fst snd]. rewrite TXtr, TXte, Tytr, Tyte.
  cbn [rbind]. unfold bind at 1, lift at 1.
  rewrite train_test_split_run by (rewrite LXs, length_map; reflexivity).
  rewrite LXs, SI. cbn [rbind fst snd]. rewrite TXtr, TXte, Thtr, Thte.
  cbn [rbind].
  unfold temp_model_fit, humidity_model_fit, temp_model_score, bind, lift,
    get_self, set_self, ret, with_self.
  rewrite Cy, Ch. cbn [self temp_model humidity_model scaler api_key
    rf_fitted rf_n_estimators rf_max_depth rf_random_state
    np_random internet clock].
  unfold regressor_predict. rewrite (@has_width_hd _ _ NXtr WXtr).
  cbn [n_features_in_ predict_row]. rewrite WXte.
  destruct Xte as [ | r0 Xte ]; [ contradiction | ]. reflexivity.
Qed.

Lemma NoDup_app_disjoint {A} (l l' : list A) (x : A) :
  NoDup (l ++ l') -> In x l -> ~ In x l'.
Proof.
  induction l as [ | a l IH ]; intros N Hx; [ contradiction | ].
  cbn in N. inversion N as [ | ? ? Na Nl ]; subst.
  destruct Hx as [ -> | Hx ]; [ | exact (IH Nl Hx) ].
  intros Hx'. apply Na, in_or_app. auto.
Qed.

Lemma history_frame_ok base g w :
  has_width N_FEATURES
    (map row_features (observations_from base g 0 (history_dates w))) = true
  /\ (2 <= List.length (observations_from base g 0 (history_dates w)))%nat
  /\ List.length (observations_from base g 0 (history_dates w))
     = Z.to_nat (365 * 24 + 1).
Proof.
  pose proof (history_dates_length w) as L.
  rewrite observations_from_length. split; [ | lia ].
  apply observations_from_features.
Qed.

(** With a generator that shuffles, [train_model] returns a score in every
    world and leaves a ready predictor. *)
Lemma train_model_succeeds city w :
  shuffles (Z.to_nat (365 * 24 + 1)) ->
  exists accuracy w',
    train_model city w = (Ok accuracy, w') /\ ready (self w') = true.
Proof.
  intros Sh. unfold train_model, bind.
  destruct (get_historical_data_run city w) as (base & _ & G). rewrite G.
  destruct (history_frame_ok base (np_random w) w) as (W & L2 & L).
  rewrite <- L in Sh.
  destruct (train_on_run _
              (with_random
                 (advance (2 * List.length (history_dates w)) (np_random w)) w)
              W L2 Sh)
    as (itr & ite & Xtr & Xte & ytr & yte & htr & hte & _ & _ & _ & _ & _ & _
        & _ & _ & E).
  do 2 eexists. split; [ exact E | ].
  eapply train_on_ready; [ exact W | exact E ].
Qed.

(** X8. With a shuffling generator behind [train_test_split], training
    cannot fail: in every world, reachable network or not, [train_model]
    returns a score and leaves the scaler and both models fitted on the
    seven features, ready for [predict_weather]. *)
Theorem training_succeeds city w :
  shuffles (Z.to_nat (365 * 24 + 1)) ->
  exists accuracy w',
    train_model city w = (Ok accuracy, w')
    /\ ready (self w') = true
    /\ (forall t, exists temp_pred humidity_pred,
          predict_at t w' = (Ok (temp_pred, humidity_pred), w')).
Proof.
  intros Sh. destruct (train_model_succeeds city w Sh) as (a & w' & E & R).
  exists a, w'. split; [ exact E | ]. split; [ exact R | ].
  intros t. apply predict_at_ready, R.
Qed.

(** X9. The score [train_model] returns is computed on held-out rows.
    The rows of the scaled feature matrix are divided into a test and a
    training part that share no row and together hold every row once; the
    temperature model is the forest fitted on the training part with its
    temperatures, and the score is the coefficient of determination of that
    forest's predictions on the test part against the test temperatures. *)
Theorem score_is_held_out city w :
  shuffles (Z.to_nat (365 * 24 + 1)) ->
  exists df ind_train ind_test X_train X_test y_train y_test accuracy w' forest,
    fst (get_historical_data city w) = Ok df
    /\ train_model city w = (Ok accuracy, w')
    /\ split_indices (List.length df) 0.2 42 = Ok (ind_train, ind_test)
    /\ Permutation (ind_test ++ ind_train) (seq 0 (List.length df))
    /\ (forall i, In i ind_test -> ~ In i ind_train)
    /\ take_rows (scaled_features df) ind_train = Ok X_train
    /\ take_rows (map row_temperature df) ind_train = Ok y_train
    /\ take_rows (scaled_features df) ind_test = Ok X_test
    /\ take_rows (map row_temperature df) ind_test = Ok y_test
    /\ rf_fitted (temp_model (self w')) = Some forest
    /\ predict_row forest
       = forest_fit (rf_n_estimators (temp_model (self w)))
                    (rf_max_depth (temp_model (self w)))
                    (rf_random_state (temp_model (self w))) X_train y_train
    /\ accuracy = r2_score y_test (map (predict_row forest) X_test).
Proof.
  intros Sh. unfold train_model, bind.
  destruct (get_historical_data_run city w) as (base & _ & G). rewrite G.
  destruct (history_frame_ok base (np_random w) w) as (W & L2 & L).
  rewrite <- L in Sh.
  destruct (train_on_run _
              (with_random
                 (advance (2 * List.length (history_dates w)) (np_random w)) w)
              W L2 Sh)
    as (itr & ite & Xtr & Xte & ytr & yte & htr & hte & SI & P & TXtr & TXte
        & Tytr & Tyte & _ & _ & E).
  cbn [fst]. do 10 eexists.
  split; [ reflexivity | ]. split; [ exact E | ]. split; [ exact SI | ].
  split; [ exact P | ]. split.
  { intros i. apply NoDup_app_disjoint.
    apply (Permutation_NoDup (Permutation_sym P)), seq_NoDup. }
  repeat (split; [ eassumption | ]).
  cbn [self with_self with_random temp_model rf_fitted predict_row].
  repeat split.
Qed.

(** X10. The script (construct, train, forecast 180 days for Nagpur), with
    a shuffling generator.  Training completes whatever the first request
    meets, on the fallback temperature if need be, and leaves the predictor
    trained.  The outcome of the script is then decided by the second
    request, the one [predict_weather] sends after the training: when it is
    answered the script ends with the score of the training and 180
    forecast records; when it raises, the script stops with that exception,
    the predictor left trained and no forecast made. *)
Theorem script_outcome (API_KEY : string) (net : string -> result Body)
  (now : datetime) w :
  shuffles (Z.to_nat (365 * 24 + 1)) ->
  exists accuracy w1,
    train_model "Nagpur" (with_self (__init__ API_KEY) w) = (Ok accuracy, w1)
    /\ ready (self w1) = true
    /\ (forall e,
          fst (get_current_weather "Nagpur" (with_environment net now w1))
          = Raise e ->
          main_pipeline API_KEY net now w
          = (Raise e, with_environment net now w1))
    /\ (is_ok (fst (get_current_weather "Nagpur"
                      (with_environment net now w1))) = true ->
        exists predictions,
          main_pipeline API_KEY net now w
          = (Ok (accuracy, predictions), with_environment net now w1)
          /\ List.length predictions = 180%nat).
Proof.
  intros Sh.
  set (w0 := with_self (__init__ API_KEY) w).
  destruct (train_model_succeeds "Nagpur" w0 Sh) as (a & w1 & E & R).
  exists a, w1. split; [ exact E | ]. split; [ exact R | ].
  set (w2 := with_environment net now w1).
  assert (M : main_pipeline API_KEY net now w
              = match predict_weather "Nagpur" 180 w2 with
                | (Ok predictions, w3) => (Ok (a, predictions), w3)
                | (Raise e, w3) => (Raise e, w3)
                end).
  { unfold main_pipeline, bind, set_self, elapse, ret.
    fold (with_self (__init__ API_KEY) w). fold w0. rewrite E. reflexivity. }
  split.
  - intros e L. rewrite M, (forecast_lookup_failure w2 "Nagpur" 180 L).
    reflexivity.
  - intros L.
    destruct (forecast_days w2 "Nagpur" 180 R L) as (recs & P & F).
    change (Z.of_nat 180) with 180%Z in P. rewrite M, P.
    exists recs. split; [ reflexivity | ].
    rewrite <- (Forall2_length F), length_map, length_seq. reflexivity.
Qed.

End TrainingRun.

(** ** Dates as written *)

Section DateText.
Local Open Scope Z_scope.

Lemma digit_inj (a b : Z) : digit a = digit b -> a mod 10 = b mod 10.
Proof.
  unfold digit. intros E. apply (f_equal nat_of_ascii) in E.
  pose proof (Z.mod_pos_bound a 10 ltac:(lia)).
  pose proof (Z.mod_pos_bound b 10 ltac:(lia)).
  rewrite !nat_ascii_embedding in E by lia. lia.
Qed.

Lemma zfill2_inj (a b : Z) :
  0 <= a < 100 -> 0 <= b < 100 -> zfill2 a = zfill2 b -> a = b.
Proof.
  intros Ha Hb E. unfold zfill2 in E. injection E as E1 E0.
  apply digit_inj in E1, E0.
  rewrite (Z.mod_small (a / 10) 10) in E1
    by (split; [ apply Z.div_pos | apply Z.div_lt_upper_bound ]; lia).
  rewrite (Z.mod_small (b / 10) 10) in E1
    by (split; [ apply Z.div_pos | apply Z.div_lt_upper_bound ]; lia).
  rewrite (Z.div_mod a 10), (Z.div_mod b 10) by lia. lia.
Qed.

Lemma zfill4_inj (a b : Z) :
  0 <= a < 10000 -> 0 <= b < 10000 -> zfill4 a = zfill4 b -> a = b.
Proof.
  intros Ha Hb E. unfold zfill4, zfill2 in E. injection E as E3 E2 E1 E0.
  apply digit_inj in E3, E2, E1, E0.
  Z.to_euclidean_division_equations. lia.
Qed.

Lemma strftime_Ymd_inj (d1 d2 : datetime) :
  0 <= dt_year d1 < 10000 -> 0 <= dt_year d2 < 10000 ->
  strftime_Ymd d1 = strftime_Ymd d2 -> date_of d1 = date_of d2.
Proof.
  intros Y1 Y2 E.
  pose proof (dt_month_range d1). pose proof (dt_month_range d2).
  pose proof (dt_day_range d1). pose proof (dt_day_range d2).
  assert (P : dt_year d1 = dt_year d2 /\ dt_month d1 = dt_month d2
              /\ dt_day d1 = dt_day d2).
  { revert E. unfold strftime_Ymd.
    generalize dependent (dt_year d1). generalize dependent (dt_year d2).
    generalize dependent (dt_month d1). generalize dependent (dt_month d2).
    generalize dependent (dt_day d1). generalize dependent (dt_day d2).
    intros c2 ? c1 ? b2 ? b1 ? a2 ? a1 ? E.
    unfold zfill4, zfill2 in E. cbn [append] in E.
    injection E as E3 E2 E1 E0 M1 M0 D1 D0.
    repeat split.
    - apply zfill4_inj; [ lia | lia | ]. unfold zfill4, zfill2. congruence.
    - apply zfill2_inj; [ lia | lia | ]. unfold zfill2. congruence.
    - apply zfill2_inj; [ lia | lia | ]. unfold zfill2. congruence. }
  revert P. unfold dt_year, dt_month, dt_day, date_of.
  destruct (_ord2ymd (toordinal d1)) as [[y m] d],
           (_ord2ymd (toordinal d2)) as [[y' m'] d'].
  cbn [fst snd]. intros (-> & -> & ->). reflexivity.
Qed.

Lemma next_day_lt (d : ymd) : ymd_lt d (next_day d).
Proof.
  destruct d as [[y m] dd]. unfold next_day.
  destruct (dd <? _); [ cbn; lia | ].
  destruct (m <? 12) eqn:M; cbn; [ apply Z.ltb_lt in M; lia | lia ].
Qed.

Lemma ymd_lt_trans (a b c : ymd) : ymd_lt a b -> ymd_lt b c -> ymd_lt a c.
Proof.
  destruct a as [[y m] d], b as [[y' m'] d'], c as [[y'' m''] d''].
  cbn. lia.
Qed.

Lemma ymd_lt_irrefl (a : ymd) : ~ ymd_lt a a.
Proof. destruct a as [[y m] d]. cbn. lia. Qed.

Lemma ymd_lt_year (a b : ymd) : ymd_lt a b -> fst (fst a) <= fst (fst b).
Proof. destruct a as [[y m] d], b as [[y' m'] d']. cbn. lia. Qed.

Lemma ord2ymd_lt (n : Z) (k : nat) :
  ymd_lt (_ord2ymd n) (_ord2ymd (n + Z.of_nat (S k))).
Proof.
  induction k as [ | k IH ].
  - change (Z.of_nat 1) with 1. rewrite ord2ymd_next. apply next_day_lt.
  - eapply ymd_lt_trans; [ exact IH | ].
    replace (n + Z.of_nat (S (S k))) with (n + Z.of_nat (S k) + 1) by lia.
    rewrite ord2ymd_next. apply next_day_lt.
Qed.

Lemma ord2ymd_year_mono (n m : Z) :
  n <= m -> fst (fst (_ord2ymd n)) <= fst (fst (_ord2ymd m)).
Proof.
  intros L. destruct (Z.eq_dec n m) as [ -> | N ]; [ lia | ].
  replace m with (n + Z.of_nat (S (Z.to_nat (m - n - 1)))) by lia.
  apply ymd_lt_year, ord2ymd_lt.
Qed.

(** The years of the days of a forecast lie between its first and its
    last. *)
Lemma forecast_years w (i days : nat) :
  0 <= dt_year (clock w) ->
  dt_year (hour_date w (24 * Z.of_nat days)) <= 9999 ->
  (i <= days)%nat ->
  0 <= dt_year (hour_date w (24 * Z.of_nat i)) < 10000.
Proof.
  intros Y0 Y1 Hi. unfold dt_year in *. rewrite toordinal_hour_date in *.
  pose proof (@ord2ymd_year_mono (toordinal (clock w))
                (toordinal (clock w) + Z.of_nat i) ltac:(lia)).
  pose proof (@ord2ymd_year_mono (toordinal (clock w) + Z.of_nat i)
                (toordinal (clock w) + Z.of_nat days) ltac:(lia)).
  lia.
Qed.

Lemma digit_value_digit (n : Z) : digit_value (digit n) = Some (n mod 10).
Proof.
  unfold digit_value, digit.
  pose proof (Z.mod_pos_bound n 10 ltac:(lia)) as B.
  rewrite nat_ascii_embedding by lia.
  replace (Z.of_nat (48 + Z.to_nat (n mod 10))) with (48 + n mod 10) by lia.
  destruct (48 <=? 48 + n mod 10) eqn:L1; [ | apply Z.leb_gt in L1; lia ].
  destruct (48 + n mod 10 <=? 57) eqn:L2; [ | apply Z.leb_gt in L2; lia ].
  cbn [andb]. f_equal. lia.
Qed.

(** The text of a date in the years 0 to 9999 reads back as that date. *)
Lemma read_Ymd_strftime_Ymd (d : datetime) :
  0 <= dt_year d < 10000 -> read_Ymd (strftime_Ymd d) = Some (date_of d).
Proof.
  intros Y. pose proof (dt_month_range d) as M. pose proof (dt_day_range d) as D.
  unfold date_of. revert Y M D. unfold strftime_Ymd, dt_year, dt_month, dt_day.
  destruct (_ord2ymd (toordinal d)) as [[y m] dd]. cbn [fst snd]. intros Y M D.
  unfold read_Ymd, zfill4, zfill2.
  cbn [append list_ascii_of_string read_number].
  change (Ascii.eqb "-" "-") with true. cbn [andb].
  rewrite !digit_value_digit. apply f_equal.
  apply triple_eq; Z.to_euclidean_division_equations; lia.
Qed.

(** Dates of different days of one forecast are written differently. *)
Lemma forecast_dates_differ w (j k days : nat) :
  0 <= dt_year (clock w) ->
  dt_year (hour_date w (24 * Z.of_nat days)) <= 9999 ->
  (j < k)%nat -> (k <= days)%nat ->
  strftime_Ymd (hour_date w (24 * Z.of_nat j))
  <> strftime_Ymd (hour_date w (24 * Z.of_nat k)).
Proof.
  intros Y0 Y1 Ljk Lk E.
  assert (Yr : forall i, (i <= days)%nat ->
             0 <= dt_year (hour_date w (24 * Z.of_nat i)) < 10000).
  { intros i Hi. unfold dt_year in *. rewrite toordinal_hour_date in *.
    pose proof (@ord2ymd_year_mono (toordinal (clock w))
                  (toordinal (clock w) + Z.of_nat i) ltac:(lia)).
    pose proof (@ord2ymd_year_mono (toordinal (clock w) + Z.of_nat i)
                  (toordinal (clock w) + Z.of_nat days) ltac:(lia)).
    lia. }
  apply strftime_Ymd_inj in E; [ | apply Yr; lia | apply Yr; lia ].
  unfold date_of in E. rewrite !toordinal_hour_date in E.
  apply (@ymd_lt_irrefl (_ord2ymd (toordinal (clock w) + Z.of_nat j))).
  rewrite E at 2.
  replace (toordinal (clock w) + Z.of_nat k)
    with (toordinal (clock w) + Z.of_nat j + Z.of_nat (S (k - j - 1))) by lia.
  apply ord2ymd_lt.
Qed.

End DateText.

Lemma NoDup_map_on {A B} (f : A -> B) (l : list A) :
  NoDup l ->
  (forall x y, In x l -> In y l -> f x = f y -> x = y) ->
  NoDup (map f l).
Proof.
  induction 1 as [ | a l Na Nl IH ]; intros Inj; cbn; constructor.
  - intros Hin. apply in_map_iff in Hin as (x & E & Hx).
    apply Na. rewrite <- (Inj x a); cbn; auto.
  - apply IH. intros x y Hx Hy. apply Inj; cbn; auto.
Qed.

Section WrittenDates.
Context `{Numpy} `{Sklearn}.

Lemma emitted_dates w (offsets : list Z) (recs : list ForecastRecord) :
  Forall2 (emitted_at w) offsets recs ->
  map fr_date recs = map (fun i => strftime_Ymd (hour_date w i)) offsets.
Proof.
  induction 1 as [ | i r offsets recs (tp & hp & _ & ->) _ IH ];
    [ reflexivity | ].
  cbn [map forecast_record fr_date]. rewrite IH. reflexivity.
Qed.

(** C2. A forecast over 180 days on a trained predictor has one of two
    outcomes, decided by the lookup of line 114.  When the lookup raises,
    the forecast raises the same exception and yields no record at all,
    where the specification has 180.  When the lookup returns, the forecast
    is a list of exactly 180 records; record [k] is the one built at hour
    offset [24 * k], a multiple of 24, and its date is that point in time
    formatted as year-month-day.  That point lies [k] days after the start:
    its calendar date is valid and is the day after the date of record
    [k - 1].  With the clock in the years 1000 to 9999, the horizon
    included, the text written in a record reads back as that calendar
    date, and the text of each record as the day after the text of the
    record before. *)
Theorem forecast_cardinality w city :
  ready (self w) = true ->
  match fst (get_current_weather city w) with
  | Raise e => predict_weather city 180 w = (Raise e, w)
  | Ok _ =>
      exists recs,
        predict_weather city 180 w = (Ok recs, w)
        /\ List.length recs = 180%nat
        /\ (forall k, (k < 180)%nat ->
              exists r, nth_error recs k = Some r
                /\ emitted_at w (24 * Z.of_nat k) r
                /\ fr_date r = strftime_Ymd (hour_date w (24 * Z.of_nat k))
                /\ toordinal (hour_date w (24 * Z.of_nat k))
                   = (toordinal (clock w) + Z.of_nat k)%Z
                /\ valid_ymd (date_of (hour_date w (24 * Z.of_nat k))) = true
                /\ date_of (hour_date w (24 * Z.of_nat (S k)))
                   = next_day (date_of (hour_date w (24 * Z.of_nat k))))
        /\ ((1000 <= dt_year (clock w))%Z ->
            (dt_year (hour_date w (24 * 180)) <= 9999)%Z ->
            (forall k r, nth_error recs k = Some r ->
               read_Ymd (fr_date r)
               = Some (date_of (hour_date w (24 * Z.of_nat k))))
            /\ (forall k r r',
                  nth_error recs k = Some r -> nth_error recs (S k) = Some r' ->
                  exists d,
                    read_Ymd (fr_date r) = Some d
                    /\ valid_ymd d = true
                    /\ read_Ymd (fr_date r') = Some (next_day d)))
  end.
Proof.
  intros R.
  destruct (fst (get_current_weather city w)) as [ current | e ] eqn:L;
    [ | apply forecast_lookup_failure, L ].
  assert (L' : is_ok (fst (get_current_weather city w)) = true)
    by (rewrite L; reflexivity).
  destruct (forecast_days w city 180 R L') as (recs & E & F).
  assert (Len : List.length recs = 180%nat)
    by (rewrite <- (Forall2_length F), length_map, length_seq; reflexivity).
  assert (Nth : forall k, (k < 180)%nat ->
            exists r, nth_error recs k = Some r
                      /\ emitted_at w (24 * Z.of_nat k) r).
  { intros k Hk.
    apply (Forall2_nth_error F k (a := (24 * Z.of_nat k)%Z)).
    rewrite nth_error_map, nth_error_nth' with (d := 0%nat)
      by (rewrite length_seq; exact Hk).
    rewrite seq_nth by exact Hk. reflexivity. }
  exists recs. split; [ exact E | ]. split; [ exact Len | ]. split.
  - intros k Hk. destruct (Nth k Hk) as (r & Hr & He).
    exists r. split; [ exact Hr | ]. split; [ exact He | ].
    split; [ destruct He as (tp & hp & _ & ->); reflexivity | ].
    split; [ apply toordinal_hour_date | ].
    unfold date_of. split; [ apply ord2ymd_valid | ].
    rewrite !toordinal_hour_date, Nat2Z.inj_succ, <- ord2ymd_next.
    f_equal. lia.
  - intros Y0 Y1.
    assert (Read : forall k r, nth_error recs k = Some r ->
              read_Ymd (fr_date r)
              = Some (date_of (hour_date w (24 * Z.of_nat k)))).
    { intros k r Hr.
      assert (Hk : (k < 180)%nat)
        by (rewrite <- Len; apply nth_error_Some; rewrite Hr; discriminate).
      destruct (Nth k Hk) as (r0 & Hr0 & (tp & hp & _ & ->)).
      rewrite Hr in Hr0. injection Hr0 as ->.
      cbn [forecast_record fr_date]. apply read_Ymd_strftime_Ymd.
      apply (@forecast_years w k 180); [ lia | exact Y1 | lia ]. }
    split; [ exact Read | ].
    intros k r r' Hr Hr'. eexists.
    split; [ apply (Read k r Hr) | ].
    unfold date_of. split; [ apply ord2ymd_valid | ].
    rewrite (Read (S k) r' Hr'). f_equal. unfold date_of.
    rewrite !toordinal_hour_date, Nat2Z.inj_succ, <- ord2ymd_next.
    f_equal. lia.
Qed.

(** X11. For a start in year 0 or later whose horizon ends by year 9999,
    the dates written in a forecast are pairwise different: the
    year-month-day text determines the calendar day, and the records lie on
    consecutive days. *)
Theorem forecast_dates_distinct w city days :
  ready (self w) = true ->
  is_ok (fst (get_current_weather city w)) = true ->
  (0 <= days)%Z ->
  (0 <= dt_year (clock w))%Z ->
  (dt_year (hour_date w (24 * days)) <= 9999)%Z ->
  exists recs,
    predict_weather city days w = (Ok recs, w)
    /\ map fr_date recs
       = map (fun k => strftime_Ymd (hour_date w (24 * Z.of_nat k)))
             (seq 0 (Z.to_nat days))
    /\ NoDup (map fr_date recs).
Proof.
  intros R L D Y0 Y1.
  destruct (forecast_days w city (Z.to_nat days) R L) as (recs & E & F).
  rewrite Z2Nat.id in E by exact D.
  exists recs. split; [ exact E | ].
  assert (M : map fr_date recs
              = map (fun k => strftime_Ymd (hour_date w (24 * Z.of_nat k)))
                    (seq 0 (Z.to_nat days)))
    by (rewrite (emitted_dates F), map_map; reflexivity).
  split; [ exact M | ]. rewrite M.
  apply NoDup_map_on; [ apply seq_NoDup | ].
  intros j k Hj Hk Ejk. apply in_seq in Hj, Hk.
  rewrite <- (Z2Nat.id days D) in Y1.
  destruct (Nat.lt_trichotomy j k) as [ Lt | [ Eq | Gt ] ]; [ | exact Eq | ].
  - exfalso. revert Ejk.
    apply (@forecast_dates_differ w j k (Z.to_nat days)); auto; lia.
  - exfalso. symmetry in Ejk. revert Ejk.
    apply (@forecast_dates_differ w k j (Z.to_nat days)); auto; lia.
Qed.

End WrittenDates.

(** ** Hours and fresh predictors *)

Section Hours.
Context `{Numpy} `{Sklearn}.

(** X12. Forecasting on a predictor fresh from [__init__], once the lookup
    has returned and for a horizon of at least one day, raises
    [NotFittedError]: the first thing the loop does is ask the unfitted
    scaler to transform. *)
Theorem forecast_before_training (key city : string) (days : Z) w :
  is_ok (fst (get_current_weather city (with_self (__init__ key) w))) = true ->
  (1 <= days)%Z ->
  predict_weather city days (with_self (__init__ key) w)
  = (Raise NotFittedError, with_self (__init__ key) w).
Proof.
  intros L D. rewrite predict_weather_run.
  destruct (fst (get_current_weather city _)); [ | discriminate L ].
  f_equal. unfold py_range.
  destruct (Z.to_nat (days * 24)) as [ | n ] eqn:N; [ lia | ].
  cbn [seq map]. rewrite for_each_cons, forecast_step_run, predict_at_run.
  reflexivity.
Qed.

(** X13. The feature vector depends on the point in time through its whole
    hour only: minutes, seconds and microseconds do not enter. *)
Theorem features_ignore_minutes (t t' : datetime) :
  (dt_us t / US_PER_HOUR = dt_us t' / US_PER_HOUR)%Z ->
  _create_features t = _create_features t'.
Proof.
  intros E.
  assert (D : (dt_us t / US_PER_DAY = dt_us t' / US_PER_DAY)%Z).
  { change US_PER_DAY with (US_PER_HOUR * 24)%Z.
    rewrite <- !Z.div_div by (unfold US_PER_HOUR; lia). rewrite E. reflexivity. }
  unfold _create_features, dt_month, dt_day, dt_hour, toordinal.
  rewrite E, D. reflexivity.
Qed.

(** X14. Every record of a forecast is predicted for the hour of day at
    which the forecast was started: the point in time at hour offset
    [24 * k] has the hour of the clock, so the third feature is the same
    for all emitted records. *)
Theorem forecast_keeps_hour_of_day w (k : Z) :
  dt_hour (hour_date w (24 * k)) = dt_hour (clock w)
  /\ nth 2 (_create_features (hour_date w (24 * k))) 0
     = inject_Z (dt_hour (clock w)).
Proof.
  assert (E : dt_hour (hour_date w (24 * k)) = dt_hour (clock w)).
  { unfold dt_hour, hour_date, dt_add, timedelta_hours. cbn [dt_us td_us].
    rewrite Z.div_add by (unfold US_PER_HOUR; lia).
    rewrite (Z.mul_comm 24 k). apply Z_mod_plus_full. }
  split; [ exact E | ]. cbn [_create_features nth]. rewrite E. reflexivity.
Qed.

End Hours.

(* ------------------------------------------------------------------ *)
(** * Instances on the example worlds *)

(** The 180-day forecast of the trained example predictor at noon of
    2026-11-03: offline it raises, online it has its 180 records. *)
Lemma forecast_cardinality_example :
  (let w := Example.offline Example.trained_predictor in
   ready (self w) = true
   /\ predict_weather (H := Example.numpy) "Nagpur" 180 w
      = (Raise ConnectionError, w))
  /\ (let w := Example.online Example.trained_predictor in
      ready (self w) = true
      /\ (1000 <= dt_year (clock w))%Z
      /\ (dt_year (hour_date w (24 * 180)) <= 9999)%Z
      /\ exists recs,
           predict_weather (H := Example.numpy) "Nagpur" 180 w = (Ok recs, w)
           /\ List.length recs = 180%nat
           /\ (forall k, (k < 180)%nat ->
                 exists r, nth_error recs k = Some r
                   /\ emitted_at (H := Example.numpy) w (24 * Z.of_nat k) r
                   /\ fr_date r = strftime_Ymd (hour_date w (24 * Z.of_nat k))
                   /\ toordinal (hour_date w (24 * Z.of_nat k))
                      = (toordinal (clock w) + Z.of_nat k)%Z
                   /\ valid_ymd (date_of (hour_date w (24 * Z.of_nat k))) = true
                   /\ date_of (hour_date w (24 * Z.of_nat (S k)))
                      = next_day (date_of (hour_date w (24 * Z.of_nat k))))
           /\ ((1000 <= dt_year (clock w))%Z ->
               (dt_year (hour_date w (24 * 180)) <= 9999)%Z ->
               (forall k r, nth_error recs k = Some r ->
                  read_Ymd (fr_date r)
                  = Some (date_of (hour_date w (24 * Z.of_nat k))))
               /\ (forall k r r',
                     nth_error recs k = Some r ->
                     nth_error recs (S k) = Some r' ->
                     exists d,
                       read_Ymd (fr_date r) = Some d
                       /\ valid_ymd d = true
                       /\ read_Ymd (fr_date r') = Some (next_day d)))).
Proof.
  split.
  - intros w. assert (R : ready (self w) = true) by reflexivity.
    split; [ exact R | ].
    exact (forecast_cardinality (H := Example.numpy) w "Nagpur" R).
  - intros w. assert (R : ready (self w) = true) by reflexivity.
    split; [ exact R | ].
    split; [ vm_compute; discriminate | ].
    split; [ vm_compute; discriminate | ].
    exact (forecast_cardinality (H := Example.numpy) w "Nagpur" R).
Defined.

(** The one record of a one-day forecast of the same predictor: the models
    answer 29.375 and 44, the record holds the doubles 26.4 and 44.0. *)
Lemma emitted_record_fields_example :
  let w := Example.online Example.trained_predictor in
  let r := {| fr_date := "2026-11-03";
              fr_temperature := Finite (nearest_double 26.4);
              fr_humidity := Finite 44; fr_event := None |} in
  fst (predict_weather (H := Example.numpy) "Nagpur" 1 w) = Ok [r]
  /\ In r [r]
  /\ exists i temp_pred humidity_pred,
       (0 <= i < 1 * 24)%Z /\ (i mod 24 = 0)%Z
       /\ fst (predict_at (H := Example.numpy) (hour_date w i) w)
          = Ok (temp_pred, humidity_pred)
       /\ fr_temperature r
          = round1 (float64_sub (Finite temp_pred) (Finite 3))
       /\ fr_humidity r = round1 (Finite humidity_pred)
       /\ fr_event r = _predict_weather_event temp_pred humidity_pred
       /\ rounded_to_one_decimal (temp_pred - 3) (fr_temperature r)
       /\ rounded_to_one_decimal humidity_pred (fr_humidity r).
Proof.
  intros w r.
  assert (E : fst (predict_weather (H := Example.numpy) "Nagpur" 1 w) = Ok [r])
    by (vm_compute; reflexivity).
  assert (I : In r [r]) by (left; reflexivity).
  split; [ exact E | ]. split; [ exact I | ].
  exact (emitted_record_fields (H := Example.numpy) w "Nagpur" 1 r E I).
Defined.

(** The record is not always the nearest tenth.  A temperature model that
    answers the double written 17.05 leaves, after the subtraction of 3,
    a value just above 14.05, whose nearest tenth is 14.1; its product with
    10 rounds to the double 140.5, a tie that [np.rint] takes to 140, and
    the record holds 14.0. *)
Lemma emitted_temperature_not_nearest_tenth :
  let w := Example.online Example.tie_predictor in
  let temp_pred := nearest_double 17.05 in
  let r := {| fr_date := "2026-11-03"; fr_temperature := Finite 14;
              fr_humidity := Finite 44; fr_event := None |} in
  ready (self w) = true
  /\ fst (predict_weather (H := Example.numpy) "Nagpur" 1 w) = Ok [r]
  /\ fst (predict_at (H := Example.numpy) (hour_date w 0) w)
     = Ok (temp_pred, 44)
  /\ Qred (temp_pred - 3) = nearest_double (temp_pred - 3)
  /\ float64_mul (float64_sub (Finite temp_pred) (Finite 3)) (Finite 10)
     = Finite (Qred 140.5)
  /\ np_rint 140.5 = 140%Z
  /\ 1 # 20 < Qabs (14 - (temp_pred - 3))
  /\ Qabs (14.1 - (temp_pred - 3)) < 1 # 20.
Proof.
  intros w temp_pred r. repeat split; vm_compute; reflexivity.
Qed.

(** An answer whose [main] has no [temp] makes the lookup raise
    [KeyError('temp')]. *)
Lemma get_current_weather_no_temp :
  let w := {| self := Example.trained_predictor;
              np_random := Example.generator;
              internet := fun _ => Ok Example.no_temp;
              clock := Example.noon |} in
  get_current_weather "Nagpur" w = (Raise (KeyError "temp"), w).
Proof. reflexivity. Qed.

(** The fallback on a fresh predictor, offline. *)
Lemma lookup_failure_falls_back_example :
  let w := Example.offline (__init__ "API_KEY") in
  fst (get_current_weather "Nagpur" w) = Raise ConnectionError
  /\ _get_base_temperature "Nagpur" w = (Ok 25.0, w)
  /\ exists df w',
       get_historical_data (H := Example.numpy) "Nagpur" w = (Ok df, w')
       /\ df = observations_from (H := Example.numpy) 25.0 (np_random w) 0
                 (history_dates w)
       /\ Z.of_nat (List.length df) = (365 * 24 + 1)%Z.
Proof.
  intros w.
  assert (L : fst (get_current_weather "Nagpur" w) = Raise ConnectionError)
    by reflexivity.
  split; [ exact L | ].
  exact (lookup_failure_falls_back (H := Example.numpy) w "Nagpur" L).
Defined.

(** A horizon of no days on a fresh predictor, never trained: the forecast
    returns the empty list and raises nothing. *)
Lemma forecast_of_no_days_does_not_raise :
  let w := Example.online (__init__ "API_KEY") in
  ready (self w) = false
  /\ scaler_fitted (scaler (self w)) = None
  /\ predict_weather (H := Example.numpy) "Nagpur" 0 w = (Ok [], w).
Proof. repeat split; reflexivity. Qed.

(** The same predictor on a horizon of one day. *)
Lemma forecast_not_ready_raises_example :
  let w := Example.online (__init__ "API_KEY") in
  ready (self w) = false
  /\ (1 <= 1)%Z
  /\ exists e,
       predict_weather (H := Example.numpy) "Nagpur" 1 w = (Raise e, w)
       /\ (is_ok (fst (get_current_weather "Nagpur" w)) = true ->
           e = NotFittedError \/ e = ValueError msg_width).
Proof.
  intros w.
  assert (NR : ready (self w) = false) by reflexivity.
  assert (D : (1 <= 1)%Z) by lia.
  split; [ exact NR | ]. split; [ exact D | ].
  exact (forecast_not_ready_raises (H := Example.numpy) w "Nagpur" NR D).
Defined.

(** Five rows split with the example permutation. *)
Lemma independent_splits_are_joint_example :
  let X : matrix := [ [1]; [2]; [3]; [4]; [5] ] in
  let y_temp : vector := [ 10; 20; 30; 40; 50 ] in
  let y_humidity : vector := [ 61; 62; 63; 64; 65 ] in
  let X_train : matrix := [ [4]; [5]; [1]; [2] ] in
  let X_test : matrix := [ [3] ] in
  List.length y_temp = List.length X
  /\ List.length y_humidity = List.length X
  /\ train_test_split (H := Example.sklearn) X y_temp 0.2 42
     = Ok (X_train, X_test, [ 40; 50; 10; 20 ], [ 30 ])
  /\ (exists ind_train ind_test y_humidity_train y_humidity_test,
        split_indices (H := Example.sklearn) (List.length X) 0.2 42
          = Ok (ind_train, ind_test)
        /\ train_test_split (H := Example.sklearn) X y_humidity 0.2 42
           = Ok (X_train, X_test, y_humidity_train, y_humidity_test)
        /\ take_rows X ind_train = Ok X_train
        /\ take_rows y_temp ind_train = Ok [ 40; 50; 10; 20 ]
        /\ take_rows y_humidity ind_train = Ok y_humidity_train
        /\ take_rows X ind_test = Ok X_test
        /\ take_rows y_temp ind_test = Ok [ 30 ]
        /\ take_rows y_humidity ind_test = Ok y_humidity_test)
  /\ (forall df w,
        train_on (H := Example.numpy) (H0 := Example.sklearn) df w
        = train_on_joint (H := Example.numpy) (H0 := Example.sklearn) df w).
Proof.
  intros X y_temp y_humidity X_train X_test.
  assert (Et : List.length y_temp = List.length X) by reflexivity.
  assert (Eh : List.length y_humidity = List.length X) by reflexivity.
  assert (S : train_test_split (H := Example.sklearn) X y_temp 0.2 42
              = Ok (X_train, X_test, [ 40; 50; 10; 20 ], [ 30 ]))
    by (vm_compute; reflexivity).
  split; [ exact Et | ]. split; [ exact Eh | ]. split; [ exact S | ].
  exact (independent_splits_are_joint (H := Example.numpy)
           (H0 := Example.sklearn) X y_temp y_humidity 0.2 42 Et Eh S).
Defined.

(** The example permutation, a rotation, shuffles. *)
Lemma example_shuffles (n : nat) : shuffles (H0 := Example.sklearn) n.
Proof.
  unfold shuffles. cbn [permutation Example.sklearn].
  set (k := (Z.to_nat 42 mod Nat.max n 1)%nat).
  rewrite <- (firstn_skipn k (seq 0 n)) at 3. apply Permutation_app_comm.
Qed.

(** A three-day forecast of the trained example predictor. *)
Lemma forecast_any_horizon_example :
  let w := Example.online Example.trained_predictor in
  is_ok (fst (get_current_weather "Nagpur" w)) = true
  /\ ((3 <= 0)%Z -> predict_weather (H := Example.numpy) "Nagpur" 3 w = (Ok [], w))
  /\ (ready (self w) = true -> (0 <= 3)%Z ->
      (1 <= dt_year (clock w))%Z ->
      (dt_year (hour_date w (24 * 3)) <= 9999)%Z ->
      exists recs,
        predict_weather (H := Example.numpy) "Nagpur" 3 w = (Ok recs, w)
        /\ Z.of_nat (List.length recs) = 3%Z
        /\ forall k, (Z.of_nat k < 3)%Z ->
             exists r, nth_error recs k = Some r
                       /\ emitted_at (H := Example.numpy) w (24 * Z.of_nat k) r).
Proof.
  intros w.
  assert (L : is_ok (fst (get_current_weather "Nagpur" w)) = true)
    by reflexivity.
  split; [ exact L | ].
  exact (forecast_any_horizon (H := Example.numpy) w "Nagpur" 3 L).
Defined.

(** Training the example learners on a fresh predictor, offline. *)
Lemma training_succeeds_example :
  let w := Example.offline (__init__ "API_KEY") in
  shuffles (H0 := Example.sklearn) (Z.to_nat (365 * 24 + 1))
  /\ exists accuracy w',
       train_model (H := Example.numpy) (H0 := Example.sklearn) "Nagpur" w
       = (Ok accuracy, w')
       /\ ready (self w') = true
       /\ (forall t, exists temp_pred humidity_pred,
             predict_at (H := Example.numpy) t w'
             = (Ok (temp_pred, humidity_pred), w')).
Proof.
  intros w.
  assert (Sh : shuffles (H0 := Example.sklearn) (Z.to_nat (365 * 24 + 1)))
    by apply example_shuffles.
  split; [ exact Sh | ].
  exact (training_succeeds (H := Example.numpy) (H0 := Example.sklearn)
           "Nagpur" w Sh).
Defined.

(** The held-out score of the same training. *)
Lemma score_is_held_out_example :
  let w := Example.offline (__init__ "API_KEY") in
  shuffles (H0 := Example.sklearn) (Z.to_nat (365 * 24 + 1))
  /\ exists df ind_train ind_test X_train X_test y_train y_test accuracy w'
            forest,
       fst (get_historical_data (H := Example.numpy) "Nagpur" w) = Ok df
       /\ train_model (H := Example.numpy) (H0 := Example.sklearn) "Nagpur" w
          = (Ok accuracy, w')
       /\ split_indices (H := Example.sklearn) (List.length df) 0.2 42
          = Ok (ind_train, ind_test)
       /\ Permutation (ind_test ++ ind_train) (seq 0 (List.length df))
       /\ (forall i, In i ind_test -> ~ In i ind_train)
       /\ take_rows (scaled_features (H := Example.numpy) df) ind_train
          = Ok X_train
       /\ take_rows (map row_temperature df) ind_train = Ok y_train
       /\ take_rows (scaled_features (H := Example.numpy) df) ind_test
          = Ok X_test
       /\ take_rows (map row_temperature df) ind_test = Ok y_test
       /\ rf_fitted (temp_model (self w')) = Some forest
       /\ predict_row forest
          = forest_fit (Sklearn := Example.sklearn)
                       (rf_n_estimators (temp_model (self w)))
                       (rf_max_depth (temp_model (self w)))
                       (rf_random_state (temp_model (self w))) X_train y_train
       /\ accuracy = r2_score y_test (map (predict_row forest) X_test).
Proof.
  intros w.
  assert (Sh : shuffles (H0 := Example.sklearn) (Z.to_nat (365 * 24 + 1)))
    by apply example_shuffles.
  split; [ exact Sh | ].
  exact (score_is_held_out (H := Example.numpy) (H0 := Example.sklearn)
           "Nagpur" w Sh).
Defined.

(** The script with the example learners, started without a network that
    is back five minutes later, when the training is done. *)
Lemma script_outcome_example :
  let w := Example.offline Example.trained_predictor in
  let net := fun _ : string => Ok Example.nagpur_now in
  let now := Example.after_training in
  shuffles (H0 := Example.sklearn) (Z.to_nat (365 * 24 + 1))
  /\ exists accuracy w1,
       train_model (H := Example.numpy) (H0 := Example.sklearn) "Nagpur"
         (with_self (__init__ "API_KEY") w) = (Ok accuracy, w1)
       /\ ready (self w1) = true
       /\ (forall e,
             fst (get_current_weather "Nagpur" (with_environment net now w1))
             = Raise e ->
             main_pipeline (H := Example.numpy) (H0 := Example.sklearn)
               "API_KEY" net now w
             = (Raise e, with_environment net now w1))
       /\ (is_ok (fst (get_current_weather "Nagpur"
                         (with_environment net now w1))) = true ->
           exists predictions,
             main_pipeline (H := Example.numpy) (H0 := Example.sklearn)
               "API_KEY" net now w
             = (Ok (accuracy, predictions), with_environment net now w1)
             /\ List.length predictions = 180%nat).
Proof.
  intros w net now.
  assert (Sh : shuffles (H0 := Example.sklearn) (Z.to_nat (365 * 24 + 1)))
    by apply example_shuffles.
  split; [ exact Sh | ].
  exact (script_outcome (H := Example.numpy) (H0 := Example.sklearn)
           "API_KEY" net now w Sh).
Defined.

(** The dates of the 180-day forecast of the trained example predictor. *)
Lemma forecast_dates_distinct_example :
  let w := Example.online Example.trained_predictor in
  ready (self w) = true
  /\ is_ok (fst (get_current_weather "Nagpur" w)) = true
  /\ (0 <= 180)%Z
  /\ (0 <= dt_year (clock w))%Z
  /\ (dt_year (hour_date w (24 * 180)) <= 9999)%Z
  /\ exists recs,
       predict_weather (H := Example.numpy) "Nagpur" 180 w = (Ok recs, w)
       /\ map fr_date recs
          = map (fun k => strftime_Ymd (hour_date w (24 * Z.of_nat k)))
                (seq 0 (Z.to_nat 180))
       /\ NoDup (map fr_date recs).
Proof.
  intros w.
  assert (R : ready (self w) = true) by reflexivity.
  assert (L : is_ok (fst (get_current_weather "Nagpur" w)) = true)
    by reflexivity.
  assert (D : (0 <= 180)%Z) by lia.
  assert (Y0 : (0 <= dt_year (clock w))%Z) by (vm_compute; discriminate).
  assert (Y1 : (dt_year (hour_date w (24 * 180)) <= 9999)%Z)
    by (vm_compute; discriminate).
  repeat (split; [ assumption | ]).
  exact (forecast_dates_distinct (H := Example.numpy) w "Nagpur" R L D Y0 Y1).
Defined.

(** A fresh predictor, online, asked for one day. *)
Lemma forecast_before_training_example :
  let w := Example.online Example.trained_predictor in
  is_ok (fst (get_current_weather "Nagpur" (with_self (__init__ "API_KEY") w)))
  = true
  /\ (1 <= 1)%Z
  /\ predict_weather (H := Example.numpy) "Nagpur" 1
       (with_self (__init__ "API_KEY") w)
     = (Raise NotFittedError, with_self (__init__ "API_KEY") w).
Proof.
  intros w.
  assert (L : is_ok (fst (get_current_weather "Nagpur"
                            (with_self (__init__ "API_KEY") w))) = true)
    by reflexivity.
  assert (D : (1 <= 1)%Z) by lia.
  split; [ exact L | ]. split; [ exact D | ].
  exact (forecast_before_training (H := Example.numpy) "API_KEY" "Nagpur" w L D).
Defined.

(** Two instants of the same hour. *)
Lemma features_ignore_minutes_example :
  let t := Example.noon in
  let t' := mk_datetime (dt_us Example.noon + 59000000) in
  (dt_us t / US_PER_HOUR = dt_us t' / US_PER_HOUR)%Z
  /\ _create_features (H := Example.numpy) t
     = _create_features (H := Example.numpy) t'.
Proof.
  intros t t'.
  assert (E : (dt_us t / US_PER_HOUR = dt_us t' / US_PER_HOUR)%Z)
    by reflexivity.
  split; [ exact E | ].
  exact (features_ignore_minutes (H := Example.numpy) t t' E).
Defined.
